(** * CloudCast: the weather lookup and its request handlers

    A shallow embedding of [app.py]: the Flask application that asks
    OpenWeatherMap for the current weather of a location and renders the
    answer.  Python values are modelled by the inductive type [value], Python
    exceptions by [Exception], and the two effects of the program (the outbound
    HTTP GET and the exception that unwinds to a handler) by the monad [Eff],
    which threads the log of outbound requests. *)

From Stdlib Require Import ZArith String Ascii List Lia Bool.
From Stdlib Require Import Floats.PrimFloat DecimalString.
From stdpp Require Import base option list gmap strings.

Local Set Warnings "-register-all,-inexact-float".
Local Open Scope string_scope.
Local Open Scope Z_scope.

(** ** Python values *)

Module Py.

(** The values that [json.loads] produces, which are also the values the
    program stores in its own dicts.  A dict is a finite map: a JSON object
    parsed by Python keeps one value per key. *)
Inductive value :=
| VNone
| VBool (b : bool)
| VInt (n : Z)
| VFloat (f : float)
| VStr (s : string)
| VList (l : list value)
| VDict (d : gmap string value).

(** A subscript used by the program: a string key or an integer index. *)
Inductive key :=
| KStr (s : string)
| KInt (n : Z).

(** The exceptions that reach the handlers of the lookup, by the class the
    [except] clauses tell apart.  Every constructor is a subclass of
    [Exception]; [RequestException] stands for
    [requests.exceptions.RequestException] and its subclasses (connection
    errors, timeouts, ...). *)
Inductive Exception :=
| RequestException (msg : string)
| KeyError (k : key)
| IndexError (msg : string)
| TypeError (msg : string)
| AttributeError (msg : string)
| OverflowError (msg : string)
| OtherException (msg : string).

(** The result of evaluating a Python expression. *)
Inductive Outcome (A : Type) :=
| Return (a : A)
| Raise (e : Exception).
Arguments Return {A} a.
Arguments Raise {A} e.

#[global] Instance Outcome_ret : MRet Outcome := fun A a => Return a.
#[global] Instance Outcome_bind : MBind Outcome := fun A B f m =>
  match m with
  | Return a => f a
  | Raise e => Raise e
  end.

(** [bool(v)]: what [if v] and [not v] test. *)
Definition truthy (v : value) : bool :=
  match v with
  | VNone => false
  | VBool b => b
  | VInt n => negb (n =? 0)
  | VFloat f => negb (PrimFloat.eqb f 0%float)
  | VStr s => negb (String.eqb s "")
  | VList l => negb (Nat.eqb (List.length l) 0)
  | VDict d => negb (Nat.eqb (size d) 0)
  end.

(** An optional string as a Python value: [None] or a [str]. *)
Definition of_optional (o : option string) : value :=
  match o with
  | None => VNone
  | Some s => VStr s
  end.

Definition type_name (v : value) : string :=
  match v with
  | VNone => "NoneType"
  | VBool _ => "bool"
  | VInt _ => "int"
  | VFloat _ => "float"
  | VStr _ => "str"
  | VList _ => "list"
  | VDict _ => "dict"
  end.

(** [repr] of a subscript.  For a string this is the string between single
    quotes, which is what Python prints for every key without quote,
    backslash or control character, so for every key the program uses. *)
Definition repr_key (k : key) : string :=
  match k with
  | KStr s => "'" +:+ s +:+ "'"
  | KInt n => NilZero.string_of_int (Z.to_int n)
  end.

(** [str(e)], as the f-strings of the handlers print an exception: a
    [KeyError] prints the [repr] of its key, the others their message. *)
Definition exc_str (e : Exception) : string :=
  match e with
  | KeyError k => repr_key k
  | RequestException msg | IndexError msg | TypeError msg
  | AttributeError msg | OverflowError msg | OtherException msg => msg
  end.

(** [seq[i]] on a sequence of length [len]: a negative index counts from the
    end, and an index outside the sequence has no position. *)
Definition seq_position (len : nat) (i : Z) : option nat :=
  let j := if i <? 0 then Z.of_nat len + i else i in
  if (0 <=? j) && (j <? Z.of_nat len) then Some (Z.to_nat j) else None.

Definition string_at (s : string) (n : nat) : option string :=
  match String.get n s with
  | Some c => Some (String c EmptyString)
  | None => None
  end.

(** [v[k]].  The messages are those of CPython 3.11 and later. *)
Definition subscript (v : value) (k : key) : Outcome value :=
  match v, k with
  | VDict d, KStr s =>
      match d !! s with
      | Some x => Return x
      | None => Raise (KeyError k)
      end
  | VDict _, KInt _ => Raise (KeyError k)
  | VList l, KInt i =>
      match seq_position (List.length l) i with
      | Some n =>
          match l !! n with
          | Some x => Return x
          | None => Raise (IndexError "list index out of range")
          end
      | None => Raise (IndexError "list index out of range")
      end
  | VList _, KStr _ =>
      Raise (TypeError "list indices must be integers or slices, not str")
  | VStr s, KInt i =>
      match seq_position (String.length s) i with
      | Some n =>
          match string_at s n with
          | Some c => Return (VStr c)
          | None => Raise (IndexError "string index out of range")
          end
      | None => Raise (IndexError "string index out of range")
      end
  | VStr _, KStr _ =>
      Raise (TypeError "string indices must be integers, not 'str'")
  | _, _ =>
      Raise (TypeError ("'" +:+ type_name v +:+ "' object is not subscriptable"))
  end.

Definition no_attribute (v : value) (attr : string) : Exception :=
  AttributeError
    ("'" +:+ type_name v +:+ "' object has no attribute '" +:+ attr +:+ "'").

(** [v.get(k, default)]: only a dict has the method. *)
Definition get (v : value) (k : string) (dflt : value) : Outcome value :=
  match v with
  | VDict d => Return (default dflt (d !! k))
  | _ => Raise (no_attribute v "get")
  end.

(** Case mapping, on the ASCII letters; other characters are left alone.
    A text is a string of bytes here, and on a text of ASCII characters this
    is the case mapping of Python.  Python also maps the letters outside
    ASCII, which these definitions do not: what is stated below about the
    capitalised text is stated for ASCII text. *)
Definition is_lower (c : ascii) : bool :=
  let n := N_of_ascii c in ((97 <=? n) && (n <=? 122))%N.
Definition is_upper (c : ascii) : bool :=
  let n := N_of_ascii c in ((65 <=? n) && (n <=? 90))%N.
Definition to_upper (c : ascii) : ascii :=
  if is_lower c then ascii_of_N (N_of_ascii c - 32) else c.
Definition to_lower (c : ascii) : ascii :=
  if is_upper c then ascii_of_N (N_of_ascii c + 32) else c.

Fixpoint lower (s : string) : string :=
  match s with
  | EmptyString => EmptyString
  | String c r => String (to_lower c) (lower r)
  end.

(** [str.capitalize] on ASCII text: the first character upper-cased, every
    other character lower-cased. *)
Definition str_capitalize (s : string) : string :=
  match s with
  | EmptyString => EmptyString
  | String c r => String (to_upper c) (lower r)
  end.

(** [v.capitalize()]: only a [str] has the method. *)
Definition capitalize (v : value) : Outcome string :=
  match v with
  | VStr s => Return (str_capitalize s)
  | _ => Raise (no_attribute v "capitalize")
  end.

End Py.

Import Py.

(** ** The world around the program *)

(** What [requests.get(url, params=params)] sends. *)
Record Request := {
  url : string;
  params : list (string * value)
}.

(** What the program reads of a [requests.Response]: its status code and the
    outcome of [response.json()], a parsed body or the exception that
    [requests] raises on a body that is not JSON. *)
Record Response := {
  status_code : Z;
  json : Outcome value
}.

(** A reading of the local clock. *)
Record datetime := {
  year : N;
  month : N;
  day : N;
  hour : N;
  minute : N;
  second : N
}.

Definition decimal (n : N) : string := NilZero.string_of_uint (N.to_uint n).

Definition two_digits (n : N) : string :=
  if (n <? 10)%N then "0" +:+ decimal n else decimal n.

(** [d.strftime('%Y-%m-%d %H:%M:%S')], for a year of four digits. *)
Definition strftime (d : datetime) : string :=
  decimal (year d) +:+ "-" +:+ two_digits (month d) +:+ "-"
  +:+ two_digits (day d) +:+ " " +:+ two_digits (hour d) +:+ ":"
  +:+ two_digits (minute d) +:+ ":" +:+ two_digits (second d).

(** The process configuration and the outside world, fixed for one request:
    the value of the environment variable read at start-up, the behaviour of
    the upstream (a response, or the exception [requests.get] raises), and the
    clock. *)
Record Env := {
  OPENWEATHER_API_KEY : option string;
  upstream : Request -> Outcome Response;
  now : datetime
}.

(** ** Effects: the log of outbound requests, and exceptions *)

Definition Eff (A : Type) : Type :=
  list Request -> Outcome A * list Request.

#[global] Instance Eff_ret : MRet Eff := fun A a log => (Return a, log).
#[global] Instance Eff_bind : MBind Eff := fun A B f m log =>
  match m log with
  | (Return a, log') => f a log'
  | (Raise e, log') => (Raise e, log')
  end.

(** A pure Python expression inside an effectful block. *)
Definition lift {A : Type} (o : Outcome A) : Eff A := fun log => (o, log).

(** [requests.get]: one request goes out, whatever comes back. *)
Definition requests_get (env : Env) (u : string)
    (ps : list (string * value)) : Eff Response :=
  fun log =>
    let request := {| url := u; params := ps |} in
    (upstream env request, (log ++ [request])%list).

(** [try: body except ...: handler]. *)
Definition try_except {A : Type} (body : Eff A)
    (handler : Exception -> Eff A) : Eff A :=
  fun log =>
    match body log with
    | (Return a, log') => (Return a, log')
    | (Raise e, log') => handler e log'
    end.

(** ** The application *)

Definition base_url : string :=
  "https://api.openweathermap.org/data/2.5/weather".

(** The [params] dict of the lookup, in the order it is written. *)
Definition weather_params (env : Env) (location : string)
    : list (string * value) :=
  [ ("q", VStr location);
    ("appid", of_optional (OPENWEATHER_API_KEY env));
    ("units", VStr "metric") ].

Definition error_result (msg : string) : gmap string value :=
  {[ "error" := VStr msg ]}.

(** The [try] block of [get_weather_data]. *)
Definition try_block (env : Env) (location : string)
    : Eff (gmap string value) :=
  response ← requests_get env base_url (weather_params env location);
  data ← lift (json response);
  if status_code response =? 200 then
    name ← lift (subscript data (KStr "name"));
    temp ← lift (main ← subscript data (KStr "main");
                 subscript main (KStr "temp"));
    description ← lift (weather ← subscript data (KStr "weather");
                        first ← subscript weather (KInt 0);
                        text ← subscript first (KStr "description");
                        capitalize text);
    humidity ← lift (main ← subscript data (KStr "main");
                     subscript main (KStr "humidity"));
    wind_speed ← lift (wind ← subscript data (KStr "wind");
                       subscript wind (KStr "speed"));
    let current_time := strftime (now env) in
    mret (<["location" := name]>
          (<["temp" := temp]>
          (<["description" := VStr description]>
          (<["humidity" := humidity]>
          (<["wind_speed" := wind_speed]>
          (<["current_time" := VStr current_time]> ∅))))))
  else
    error_message ← lift (message ← get data "message" (VStr "Unknown error");
                          capitalize message);
    mret (error_result
      ("Error fetching weather for " +:+ location +:+ ": "
       +:+ error_message)).

(** The three [except] clauses of [get_weather_data], tried in the order
    they are written. *)
Definition except_clauses (e : Exception) : Eff (gmap string value) :=
  match e with
  | RequestException _ =>
      mret (error_result
        ("Network error: " +:+ exc_str e
         +:+ ". Check internet connection or API endpoint."))
  | KeyError _ =>
      mret (error_result
        ("Unexpected API response format: Missing key " +:+ exc_str e
         +:+ ". Please try again."))
  | _ =>
      mret (error_result ("An unexpected error occurred: " +:+ exc_str e))
  end.

(** [get_weather_data(location)] *)
Definition get_weather_data (env : Env) (location : string)
    : Eff (gmap string value) :=
  if negb (truthy (of_optional (OPENWEATHER_API_KEY env))) then
    mret (error_result
      "API Key not configured. Please set the OPENWEATHER_API_KEY environment variable.")
  else
    try_except (try_block env location) except_clauses.

(** *** The page *)

(** The six substitutions of the weather panel.  An attribute the dict does
    not have is Jinja's [Undefined], here [None]. *)
Record Panel := {
  panel_location : option value;
  panel_temp : value;
  panel_description : option value;
  panel_humidity : option value;
  panel_wind_speed : value;
  panel_current_time : option value
}.

(** The document [HTML_TEMPLATE] renders to, by the branch of its
    [{% if error %} ... {% elif weather_data %} ... {% endif %}] and the values
    substituted there; the form and the footer are on every page. *)
Inductive Page :=
| ErrorPage (error : value)
| WeatherPage (panel : Panel)
| FormPage.

(** A name of the template context: one that was not passed is undefined,
    and an undefined name is false. *)
Definition defined_and_true (o : option value) : bool :=
  match o with
  | Some v => truthy v
  | None => false
  end.

(** [weather_data.attr] in the template: the item of a dict. *)
Definition attribute (o : option value) (attr : string) : option value :=
  match o with
  | Some (VDict d) => d !! attr
  | _ => None
  end.

(** The integers from [float_limit] on, in absolute value, do not convert to
    a float: they round to 2^1024 or beyond. *)
Definition float_limit : Z := 2 ^ 1024 - 2 ^ 970.

(** ["%.1f"|format(x)] converts a number to a float and raises
    [OverflowError] on an integer too large for that, and [TypeError] on
    anything that is not a number; the page keeps the number it prints with
    one decimal. *)
Definition format_1f (o : option value) : Outcome value :=
  match o with
  | Some (VInt n) =>
      if Z.abs n <? float_limit then Return (VInt n)
      else Raise (OverflowError "int too large to convert to float")
  | Some (VFloat f) => Return (VFloat f)
  | Some (VBool b) => Return (VBool b)
  | Some v =>
      Raise (TypeError ("must be real number, not " +:+ type_name v))
  | None => Raise (TypeError "must be real number, not Undefined")
  end.

(** [render_template_string(HTML_TEMPLATE, **context)] *)
Definition render_template_string (context : gmap string value)
    : Outcome Page :=
  if defined_and_true (context !! "error") then
    match context !! "error" with
    | Some error => Return (ErrorPage error)
    | None => Return FormPage
    end
  else if defined_and_true (context !! "weather_data") then
    let weather_data := context !! "weather_data" in
    temp ← format_1f (attribute weather_data "temp");
    wind_speed ← format_1f (attribute weather_data "wind_speed");
    Return (WeatherPage
      {| panel_location := attribute weather_data "location";
         panel_temp := temp;
         panel_description := attribute weather_data "description";
         panel_humidity := attribute weather_data "humidity";
         panel_wind_speed := wind_speed;
         panel_current_time := attribute weather_data "current_time" |})
  else Return FormPage.

(** *** The routes *)

Inductive Method := GET | POST.

(** An incoming request: method, path, and the fields of the submitted form
    in the order they were sent. *)
Record HttpRequest := {
  method : Method;
  path : string;
  form : list (string * string)
}.

(** [request.form.get(name)]: the first value sent under the name, or
    [None]. *)
Fixpoint form_get (fields : list (string * string)) (name : string)
    : option string :=
  match fields with
  | [] => None
  | (k, v) :: rest => if String.eqb k name then Some v else form_get rest name
  end.

Definition please_enter : value := VStr "Please enter a location.".

(** [index()], the view of [/]. *)
Definition index (env : Env) (request : HttpRequest) : Eff Page :=
  let weather_data := VNone in
  let error := VNone in
  if negb (truthy (of_optional (OPENWEATHER_API_KEY env))) then
    let error :=
      VStr "OpenWeatherMap API Key is not set in environment variables." in
    lift (render_template_string {[ "error" := error ]})
  else
    vars ← match method request with
           | POST =>
               match form_get (form request) "location" with
               | Some location =>
                   if truthy (VStr location) then
                     result ← get_weather_data env location;
                     if bool_decide ("error" ∈ dom result) then
                       error ← lift (subscript (VDict result) (KStr "error"));
                       mret (weather_data, error)
                     else
                       mret (VDict result, error)
                   else mret (weather_data, please_enter)
               | None => mret (weather_data, please_enter)
               end
           | GET => mret (weather_data, error)
           end;
    lift (render_template_string
            (<["weather_data" := vars.1]> {[ "error" := vars.2 ]})).

(** [health_check()], the view of [/health]. *)
Definition health_check : Eff (string * Z) := mret ("OK", 200).

(** What goes back to the client. *)
Inductive Body :=
| Html (page : Page)
| Text (text : string)
| ErrorDocument.

Record HttpResponse := {
  status : Z;
  body : Body
}.

(** The routing of the two [@app.route] decorators: [/] answers GET and
    POST, [/health] answers GET.  A view that returns a page answers 200, a
    view that raises answers 500. *)
Definition dispatch (env : Env) (request : HttpRequest)
    : list Request -> HttpResponse * list Request :=
  fun log =>
    if String.eqb (path request) "/" then
      match index env request log with
      | (Return page, log') => ({| status := 200; body := Html page |}, log')
      | (Raise _, log') => ({| status := 500; body := ErrorDocument |}, log')
      end
    else if String.eqb (path request) "/health" then
      match method request with
      | GET =>
          match health_check log with
          | (Return (text, code), log') =>
              ({| status := code; body := Text text |}, log')
          | (Raise _, log') =>
              ({| status := 500; body := ErrorDocument |}, log')
          end
      | POST => ({| status := 405; body := ErrorDocument |}, log)
      end
    else ({| status := 404; body := ErrorDocument |}, log).

(** ** Vocabulary of the properties *)

(** The one request a lookup sends. *)
Definition weather_request (env : Env) (location : string) : Request :=
  {| url := base_url; params := weather_params env location |}.

(** The API key is set: the variable is present and not empty. *)
Definition key_set (env : Env) : Prop :=
  exists k : string, OPENWEATHER_API_KEY env = Some k /\ k <> "".

(** The keys of a success record. *)
Definition record_keys : gset string :=
  {[ "location"; "temp"; "description"; "humidity"; "wind_speed";
     "current_time" ]}.

(** The five fields of the upstream body, as the paths the lookup follows,
    in the order it follows them. *)
Definition name_path : list key := [KStr "name"].
Definition temp_path : list key := [KStr "main"; KStr "temp"].
Definition description_path : list key :=
  [KStr "weather"; KInt 0; KStr "description"].
Definition humidity_path : list key := [KStr "main"; KStr "humidity"].
Definition speed_path : list key := [KStr "wind"; KStr "speed"].

Definition expected_fields : list (list key) :=
  [name_path; temp_path; description_path; humidity_path; speed_path].

(** Following a path through a body, one subscript after the other. *)
Fixpoint resolve (v : value) (p : list key) : Outcome value :=
  match p with
  | [] => Return v
  | k :: rest => x ← subscript v k; resolve x rest
  end.

(** A field the lookup can extract: its path leads to a value, and the
    description is a string, as [capitalize] needs. *)
Definition extracted (data : value) (p : list key) : Prop :=
  exists x : value,
    resolve data p = Return x
    /\ (p = description_path -> exists s : string, x = VStr s).

(** Status codes 200 to 299. *)
Definition is_2xx (code : Z) : bool := (200 <=? code) && (code <? 300).

(** The specification's reading of the capitalisation: the first letter
    upper-cased, the rest of the text as it was. *)
Definition capitalize_first_letter (s : string) : string :=
  match s with
  | EmptyString => EmptyString
  | String c r => String (to_upper c) r
  end.

(** The specification's notion of a location made of white space only. *)
Definition is_space (c : ascii) : bool :=
  let n := N_of_ascii c in ((n =? 32) || ((9 <=? n) && (n <=? 13)))%N.

Fixpoint all_spaces (s : string) : bool :=
  match s with
  | EmptyString => true
  | String c r => is_space c && all_spaces r
  end.

Definition whitespace_only (s : string) : bool :=
  negb (String.eqb s "") && all_spaces s.

(** One text occurs inside another. *)
Definition occurs_in (needle hay : string) : bool :=
  match String.index 0 needle hay with
  | Some _ => true
  | None => false
  end.

(** The page of the missing key. *)
Definition key_not_set_page : Page :=
  ErrorPage
    (VStr "OpenWeatherMap API Key is not set in environment variables.").

(** ** Sample worlds *)

Definition noon : datetime :=
  {| year := 2024; month := 3; day := 7; hour := 12; minute := 0; second := 5 |}.

(** An upstream that answers every request with one response. *)
Definition answering (code : Z) (data : value) : Request -> Outcome Response :=
  fun _ => Return {| status_code := code; json := Return data |}.

(** The text of a query parameter, and the query string of a request. *)
Definition param_text (v : value) : string :=
  match v with
  | VStr s => s
  | _ => ""
  end.

Fixpoint query_string (ps : list (string * value)) : string :=
  match ps with
  | [] => ""
  | (k, v) :: rest =>
      match rest with
      | [] => k +:+ "=" +:+ param_text v
      | _ => k +:+ "=" +:+ param_text v +:+ "&" +:+ query_string rest
      end
  end.

(** An upstream that cannot be reached: [requests.get] raises a connection
    error whose text quotes the URL it tried, query string included. *)
Definition unreachable : Request -> Outcome Response :=
  fun r =>
    Raise (RequestException
      ("HTTPSConnectionPool(host='api.openweathermap.org', port=443): "
       +:+ "Max retries exceeded with url: /data/2.5/weather?"
       +:+ query_string (params r))).

Definition world (k : option string) (up : Request -> Outcome Response) : Env :=
  {| OPENWEATHER_API_KEY := k; upstream := up; now := noon |}.

(** The body used by the first testable property of a success. *)
Definition london_body : value :=
  VDict (<["name" := VStr "London"]>
        (<["main" := VDict (<["temp" := VFloat 15.0%float]>
                            {[ "humidity" := VInt 70 ]})]>
        (<["weather" := VList [VDict {[ "description" := VStr "clear sky" ]}]]>
        {[ "wind" := VDict {[ "speed" := VFloat 3.2%float ]} ]}))).

Definition london_record (current_time : string) : gmap string value :=
  <["location" := VStr "London"]>
  (<["temp" := VFloat 15.0%float]>
  (<["description" := VStr "Clear sky"]>
  (<["humidity" := VInt 70]>
  (<["wind_speed" := VFloat 3.2%float]>
  (<["current_time" := VStr current_time]> ∅))))).

(** The London body without its [wind] object. *)
Definition no_wind_body : value :=
  VDict (<["name" := VStr "London"]>
        (<["main" := VDict (<["temp" := VFloat 15.0%float]>
                            {[ "humidity" := VInt 70 ]})]>
        {[ "weather" := VList [VDict {[ "description" := VStr "clear sky" ]}] ]})).

(** The London body with an empty list of weather conditions. *)
Definition no_conditions_body : value :=
  VDict (<["name" := VStr "London"]>
        (<["main" := VDict (<["temp" := VFloat 15.0%float]>
                            {[ "humidity" := VInt 70 ]})]>
        (<["weather" := VList []]>
        {[ "wind" := VDict {[ "speed" := VFloat 3.2%float ]} ]}))).

(** Bodies of refusals. *)
Definition not_found_body : value :=
  VDict {[ "message" := VStr "city not found" ]}.

Definition invalid_key_body : value :=
  VDict (<["cod" := VInt 401]> {[ "message" := VStr "Invalid API key" ]}).

(** The world of the blank form: the key is set and the upstream knows no
    such city. *)
Definition blank_world : Env :=
  world (Some "secret") (answering 404 not_found_body).

(** A world whose key is refused, and one whose upstream cannot be reached. *)
Definition refused_world : Env :=
  world (Some "secret") (answering 401 invalid_key_body).

Definition offline_world : Env := world (Some "SECRET") unreachable.

Definition offline_message : string :=
  "Network error: HTTPSConnectionPool(host='api.openweathermap.org', port=443): "
  +:+ "Max retries exceeded with url: "
  +:+ "/data/2.5/weather?q=London&appid=SECRET&units=metric"
  +:+ ". Check internet connection or API endpoint.".

Definition london_post : HttpRequest :=
  {| method := POST; path := "/"; form := [("location", "London")] |}.

(** The error of a malformed response, naming a key. *)
Definition missing_key_error (k : key) : gmap string value :=
  error_result
    ("Unexpected API response format: Missing key " +:+ repr_key k
     +:+ ". Please try again.").

(** Worlds whose upstream answers 200 with a body that lacks a field. *)
Definition windless_world : Env :=
  world (Some "secret") (answering 200 no_wind_body).

Definition cloudless_world : Env :=
  world (Some "secret") (answering 200 no_conditions_body).

(** Two worlds that differ in their key only. *)
Definition alpha_world : Env :=
  world (Some "alpha") (answering 200 london_body).

Definition beta_world : Env :=
  world (Some "beta") (answering 200 london_body).

(** A form that submits one blank as the location. *)
Definition blank_post : HttpRequest :=
  {| method := POST; path := "/"; form := [("location", " ")] |}.

(** ** Vocabulary of the further properties *)

(** The record of a success, from the five extracted values and the time. *)
Definition weather_record (name temp : value) (description : string)
    (humidity wind_speed : value) (current_time : string)
    : gmap string value :=
  <["location" := name]>
  (<["temp" := temp]>
  (<["description" := VStr description]>
  (<["humidity" := humidity]>
  (<["wind_speed" := wind_speed]>
  (<["current_time" := VStr current_time]> ∅))))).

(** The panel that shows such a record. *)
Definition weather_panel (name temp : value) (description : string)
    (humidity wind_speed : value) (current_time : string) : Panel :=
  {| panel_location := Some name;
     panel_temp := temp;
     panel_description := Some (VStr description);
     panel_humidity := Some humidity;
     panel_wind_speed := wind_speed;
     panel_current_time := Some (VStr current_time) |}.

(** The values ["%.1f"] prints: the floats, the booleans and the integers
    that convert to a float. *)
Definition is_real (v : value) : bool :=
  match v with
  | VInt n => Z.abs n <? float_limit
  | VFloat _ | VBool _ => true
  | _ => false
  end.

(** What ["%.1f"] raises on a value it does not print. *)
Definition format_error (v : value) : Exception :=
  match v with
  | VInt _ => OverflowError "int too large to convert to float"
  | _ => TypeError ("must be real number, not " +:+ type_name v)
  end.

(** A text of ASCII characters. *)
Fixpoint is_ascii (s : string) : bool :=
  match s with
  | EmptyString => true
  | String c r => (N_of_ascii c <? 128)%N && is_ascii r
  end.

(** The London body with a temperature beyond every float. *)
Definition huge_body : value :=
  VDict (<["name" := VStr "London"]>
        (<["main" := VDict (<["temp" := VInt (10 ^ 400)]>
                            {[ "humidity" := VInt 70 ]})]>
        (<["weather" := VList [VDict {[ "description" := VStr "clear sky" ]}]]>
        {[ "wind" := VDict {[ "speed" := VStr "calm" ]} ]}))).

Definition huge_world : Env := world (Some "secret") (answering 200 huge_body).

(** A clock reading of the calendar, with a year of four digits. *)
Definition calendar (d : datetime) : Prop :=
  (1000 <= year d <= 9999 /\ 1 <= month d <= 12 /\ 1 <= day d <= 31
   /\ hour d <= 23 /\ minute d <= 59 /\ second d <= 59)%N.

(** The London body with the temperature as a text. *)
Definition warm_body : value :=
  VDict (<["name" := VStr "London"]>
        (<["main" := VDict (<["temp" := VStr "warm"]>
                            {[ "humidity" := VInt 70 ]})]>
        (<["weather" := VList [VDict {[ "description" := VStr "clear sky" ]}]]>
        {[ "wind" := VDict {[ "speed" := VFloat 3.2%float ]} ]}))).

Definition warm_world : Env := world (Some "secret") (answering 200 warm_body).

(** A refusal whose message is a number. *)
Definition numbered_body : value :=
  VDict (<["cod" := VStr "404"]> {[ "message" := VInt 0 ]}).

Definition numbered_world : Env :=
  world (Some "secret") (answering 404 numbered_body).

(** An answer that is not JSON, as a release of [requests] reports it whose
    decoding error is a [RequestException]. *)
Definition gateway_world : Env :=
  world (Some "secret")
    (fun _ => Return {| status_code := 502;
                        json := Raise (RequestException
                                  "Expecting value: line 1 column 1 (char 0)") |}).

(** An answer of status 201 with the London body, and a body that is a list. *)
Definition created_world : Env :=
  world (Some "secret") (answering 201 london_body).

Definition listing_world : Env :=
  world (Some "secret") (answering 200 (VList [london_body])).

(** ** Running a lookup *)

Lemma key_set_truthy (env : Env) :
  key_set env -> truthy (of_optional (OPENWEATHER_API_KEY env)) = true.
Proof.
  intros (k & -> & Hk). simpl.
  apply negb_true_iff, String.eqb_neq. exact Hk.
Qed.

Lemma key_unset_falsy (env : Env) :
  OPENWEATHER_API_KEY env = None \/ OPENWEATHER_API_KEY env = Some "" ->
  truthy (of_optional (OPENWEATHER_API_KEY env)) = false.
Proof. intros [-> | ->]; reflexivity. Qed.

Lemma world_key_set (k : string) (up : Request -> Outcome Response) :
  k <> "" -> key_set (world (Some k) up).
Proof. intros Hk. exists k. split; [reflexivity | exact Hk]. Qed.

(** Unfolds the try block down to the outcome of the upstream. *)
Ltac run_block :=
  cbv [try_block requests_get lift
       mbind mret Eff_bind Eff_ret Outcome_bind Outcome_ret];
  repeat match goal with
  | |- context [ {| url := base_url; params := weather_params ?e ?l |} ] =>
      change {| url := base_url; params := weather_params e l |}
        with (weather_request e l)
  end.

Ltac run_lookup :=
  cbv [get_weather_data try_except except_clauses]; run_block.

(** Once the key is known to be set, the guard of the lookup is passed. *)
Ltac pass_guard Hkey :=
  rewrite (key_set_truthy _ Hkey); cbn [negb]; cbv iota.

(** Evaluates the subscripts of a body that is written out. *)
Ltac read_body :=
  cbn [json status_code subscript get capitalize default];
  repeat (simplify_map_eq; cbn [subscript get capitalize default]).

Lemma lookup_unfold (env : Env) (location : string) (log : list Request) :
  key_set env ->
  get_weather_data env location log
    = try_except (try_block env location) except_clauses log.
Proof. intros Hkey. unfold get_weather_data. pass_guard Hkey. reflexivity. Qed.

Lemma except_clauses_return (e : Exception) (log : list Request) :
  exists msg : string, except_clauses e log = (Return (error_result msg), log).
Proof. destruct e; eexists; reflexivity. Qed.

(** The try block sends its request first, and nothing after it. *)
Lemma try_block_log (env : Env) (location : string) (log : list Request) :
  (try_block env location log).2
    = (log ++ [weather_request env location])%list.
Proof.
  run_block. destruct (upstream env (weather_request env location)) as [r|e];
    [|reflexivity].
  repeat case_match; reflexivity.
Qed.

Lemma try_block_request_fails (env : Env) (location : string)
    (log : list Request) (e : Exception) :
  upstream env (weather_request env location) = Raise e ->
  try_block env location log
    = (Raise e, (log ++ [weather_request env location])%list).
Proof. intros H. run_block. rewrite H. reflexivity. Qed.

Lemma try_block_not_json (env : Env) (location : string)
    (log : list Request) (r : Response) (e : Exception) :
  upstream env (weather_request env location) = Return r ->
  json r = Raise e ->
  try_block env location log
    = (Raise e, (log ++ [weather_request env location])%list).
Proof. intros H J. run_block. rewrite H, J. reflexivity. Qed.

Lemma dom_error_result (msg : string) : dom (error_result msg) = {[ "error" ]}.
Proof. unfold error_result. apply dom_singleton_L. Qed.

(** What the try block returns is a record or an error result. *)
Lemma try_block_shape (env : Env) (location : string) (log log' : list Request)
    (d : gmap string value) :
  try_block env location log = (Return d, log') ->
  dom d = record_keys \/ exists msg : string, d = error_result msg.
Proof.
  run_block. destruct (upstream env (weather_request env location)) as [r|e];
    [|discriminate].
  repeat case_match; intros [= <- _]; try discriminate.
  - left. rewrite !dom_insert_L, dom_empty_L. unfold record_keys. set_solver.
  - right. eexists. reflexivity.
Qed.

(** A lookup returns: whatever the upstream does, the result is a dict. *)
Lemma lookup_returns (env : Env) (location : string) (log : list Request) :
  exists (d : gmap string value) (log' : list Request),
    get_weather_data env location log = (Return d, log').
Proof.
  unfold get_weather_data.
  destruct (truthy (of_optional (OPENWEATHER_API_KEY env))); cbn [negb].
  - unfold try_except.
    destruct (try_block env location log) as [[d|e] log'].
    + eauto.
    + destruct (except_clauses_return e log') as [msg ->]. eauto.
  - eexists _, _. reflexivity.
Qed.

(** ** The lookup on a well-formed answer *)

(** C1: with the key set, when the upstream answers 200 with the London body
    of the specification, the lookup returns the record with location
    "London", temperature 15.0, description "Clear sky", humidity 70 and wind
    speed 3.2, stamped with the formatted clock, after one request. *)
Theorem lookup_london (env : Env) (location : string) (log : list Request) :
  key_set env ->
  upstream env (weather_request env location)
    = Return {| status_code := 200; json := Return london_body |} ->
  get_weather_data env location log
    = (Return (london_record (strftime (now env))),
       (log ++ [weather_request env location])%list).
Proof.
  intros Hkey Hup. run_lookup. pass_guard Hkey. rewrite Hup.
  unfold london_body. read_body. reflexivity.
Qed.

Lemma lookup_london_witness :
  key_set (world (Some "secret") (answering 200 london_body))
  /\ get_weather_data (world (Some "secret") (answering 200 london_body))
       "London" []
     = (Return (london_record "2024-03-07 12:00:05"),
        [weather_request (world (Some "secret") (answering 200 london_body))
           "London"]).
Proof.
  split.
  - apply world_key_set. discriminate.
  - apply (lookup_london (world (Some "secret") (answering 200 london_body))
             "London" []).
    + apply world_key_set. discriminate.
    + reflexivity.
Defined.

(** ** The missing credential *)

Lemma render_error (error : value) (context : gmap string value) :
  context !! "error" = Some error ->
  truthy error = true ->
  render_template_string context = Return (ErrorPage error).
Proof.
  intros Hlook Htrue. unfold render_template_string.
  rewrite Hlook. cbn [defined_and_true]. rewrite Htrue. reflexivity.
Qed.

(** C4: when the API key is absent or empty, the view of [/] answers every
    request, GET or POST and whatever the form holds, with the page of the
    missing key, the router answers it with status 200, a direct lookup
    returns its own missing-key error, and the log of outbound requests is
    left as it was. *)
Theorem missing_key_no_request (env : Env) (request : HttpRequest)
    (location : string) (log : list Request) :
  OPENWEATHER_API_KEY env = None \/ OPENWEATHER_API_KEY env = Some "" ->
  index env request log = (Return key_not_set_page, log)
  /\ (path request = "/" ->
      dispatch env request log
        = ({| status := 200; body := Html key_not_set_page |}, log))
  /\ get_weather_data env location log
     = (Return (error_result
          "API Key not configured. Please set the OPENWEATHER_API_KEY environment variable."),
        log).
Proof.
  intros Hkey. apply key_unset_falsy in Hkey.
  assert (Hindex : index env request log = (Return key_not_set_page, log)).
  { unfold index. rewrite Hkey. cbn [negb]. unfold lift.
    erewrite render_error; [reflexivity | apply lookup_singleton_eq | reflexivity]. }
  split; [exact Hindex|]. split.
  - intros Hpath. unfold dispatch. rewrite Hpath. cbn [String.eqb Ascii.eqb Bool.eqb].
    rewrite Hindex. reflexivity.
  - unfold get_weather_data. rewrite Hkey. reflexivity.
Qed.

Lemma missing_key_no_request_witness :
  index (world None unreachable) blank_post [] = (Return key_not_set_page, [])
  /\ index (world (Some "") unreachable)
       {| method := GET; path := "/"; form := [] |} []
     = (Return key_not_set_page, []).
Proof.
  split.
  - apply (missing_key_no_request (world None unreachable) blank_post "" []).
    left. reflexivity.
  - apply (missing_key_no_request (world (Some "") unreachable)
             {| method := GET; path := "/"; form := [] |} "" []).
    right. reflexivity.
Defined.

(** ** The liveness endpoint *)

(** C9: whatever the key, the upstream, the clock and the log, a GET to
    [/health] is answered with status 200 and body "OK", and sends nothing. *)
Theorem health_always_ok (env : Env) (fields : list (string * string))
    (log : list Request) :
  dispatch env {| method := GET; path := "/health"; form := fields |} log
    = ({| status := 200; body := Text "OK" |}, log)
  /\ health_check log = (Return ("OK", 200), log).
Proof. split; reflexivity. Qed.

(** ** No exception leaves the lookup *)

(** C6: for every location and every behaviour of the upstream, the lookup
    returns a dict and raises nothing; whenever its try block raised, be it
    the request that failed, the body that was not JSON or any exception of
    the extraction, what it returns is an error result. *)
Theorem lookup_never_raises (env : Env) (location : string)
    (log : list Request) :
  exists (d : gmap string value) (log' : list Request),
    get_weather_data env location log = (Return d, log')
    /\ (forall (e : Exception) (log'' : list Request),
          try_block env location log = (Raise e, log'') ->
          exists msg : string, d = error_result msg)
    /\ (forall e : Exception,
          upstream env (weather_request env location) = Raise e ->
          exists msg : string, d = error_result msg)
    /\ (forall (r : Response) (e : Exception),
          upstream env (weather_request env location) = Return r ->
          json r = Raise e ->
          exists msg : string, d = error_result msg).
Proof.
  assert (Hraise : forall d log' e log'',
            get_weather_data env location log = (Return d, log') ->
            try_block env location log = (Raise e, log'') ->
            exists msg : string, d = error_result msg).
  { intros d log' e log'' Hrun Hblock. unfold get_weather_data in Hrun.
    destruct (truthy (of_optional (OPENWEATHER_API_KEY env)));
      cbn [negb] in Hrun.
    - unfold try_except in Hrun. rewrite Hblock in Hrun.
      destruct (except_clauses_return e log'') as [msg Hmsg].
      rewrite Hmsg in Hrun. injection Hrun as <- _. eauto.
    - injection Hrun as <- _. eauto. }
  destruct (lookup_returns env location log) as (d & log' & Hrun).
  exists d, log'. split; [exact Hrun|]. split; [|split].
  - intros e log'' Hblock. exact (Hraise d log' e log'' Hrun Hblock).
  - intros e Hup.
    exact (Hraise d log' e _ Hrun (try_block_request_fails env location log e Hup)).
  - intros r e Hup Hjson.
    exact (Hraise d log' e _ Hrun
             (try_block_not_json env location log r e Hup Hjson)).
Qed.

(** ** One request, never a second *)

(** C7: with the key set, a lookup appends exactly one request to the log of
    outbound requests, the GET of the weather endpoint, whatever comes back;
    when that request fails at the transport level, the lookup returns the
    network error that quotes the description of the failure. *)
Theorem lookup_single_request (env : Env) (location : string)
    (log : list Request) :
  key_set env ->
  exists d : gmap string value,
    get_weather_data env location log
      = (Return d, (log ++ [weather_request env location])%list)
    /\ (forall msg : string,
          upstream env (weather_request env location)
            = Raise (RequestException msg) ->
          d = error_result
                ("Network error: " +:+ msg
                 +:+ ". Check internet connection or API endpoint.")).
Proof.
  intros Hkey. rewrite (lookup_unfold env location log Hkey).
  unfold try_except.
  pose proof (try_block_log env location log) as Hlog.
  destruct (try_block env location log) as [[d|e] log'] eqn:Hblock;
    cbn [snd] in Hlog; subst log'.
  - exists d. split; [reflexivity|].
    intros msg Hup.
    rewrite (try_block_request_fails env location log _ Hup) in Hblock.
    discriminate.
  - destruct (except_clauses_return e
                (log ++ [weather_request env location])%list) as [m Hm].
    exists (error_result m). split; [exact Hm|].
    intros msg Hup.
    rewrite (try_block_request_fails env location log _ Hup) in Hblock.
    injection Hblock as <-.
    cbv [except_clauses exc_str mret Eff_ret] in Hm. congruence.
Qed.

Lemma lookup_single_request_witness :
  key_set (world (Some "secret") unreachable)
  /\ exists d : gmap string value,
       get_weather_data (world (Some "secret") unreachable) "London" []
         = (Return d,
            [weather_request (world (Some "secret") unreachable) "London"])
       /\ (forall msg : string,
             upstream (world (Some "secret") unreachable)
               (weather_request (world (Some "secret") unreachable) "London")
               = Raise (RequestException msg) ->
             d = error_result
                   ("Network error: " +:+ msg
                    +:+ ". Check internet connection or API endpoint.")).
Proof.
  split.
  - apply world_key_set. discriminate.
  - apply (lookup_single_request (world (Some "secret") unreachable)
             "London" []).
    apply world_key_set. discriminate.
Defined.

(** ** A record or an error, never both *)

(** C8: every result of a lookup is either a record, whose keys are exactly
    the six fields and not [error], or an error result, whose only key is
    [error]; never both; and the test of the caller, ['error' in result], is
    true exactly on the error results. *)
Theorem lookup_record_or_error (env : Env) (location : string)
    (log : list Request) :
  exists (d : gmap string value) (log' : list Request),
    get_weather_data env location log = (Return d, log')
    /\ ((dom d = record_keys /\ "error" ∉ dom d)
        \/ (exists msg : string, d = error_result msg /\ dom d = {[ "error" ]}))
    /\ ~ (dom d = record_keys /\ exists msg : string, d = error_result msg)
    /\ (bool_decide ("error" ∈ dom d) = true
        <-> exists msg : string, d = error_result msg).
Proof.
  assert (Hnot : "error" ∉ record_keys).
  { unfold record_keys. rewrite !elem_of_union, !elem_of_singleton.
    intuition discriminate. }
  assert (Hshape : forall d log',
            get_weather_data env location log = (Return d, log') ->
            dom d = record_keys \/ exists msg : string, d = error_result msg).
  { intros d log' Hrun. unfold get_weather_data in Hrun.
    destruct (truthy (of_optional (OPENWEATHER_API_KEY env)));
      cbn [negb] in Hrun.
    - unfold try_except in Hrun.
      destruct (try_block env location log) as [[d0|e] log0] eqn:Hblock.
      + injection Hrun as <- _. exact (try_block_shape _ _ _ _ _ Hblock).
      + destruct (except_clauses_return e log0) as [msg Hmsg].
        rewrite Hmsg in Hrun. injection Hrun as <- _. eauto.
    - injection Hrun as <- _. eauto. }
  destruct (lookup_returns env location log) as (d & log' & Hrun).
  exists d, log'. split; [exact Hrun|].
  destruct (Hshape d log' Hrun) as [Hrec | [msg ->]].
  - assert (Hno : ~ exists msg : string, d = error_result msg).
    { intros [msg ->]. rewrite dom_error_result in Hrec.
      apply Hnot. rewrite <- Hrec. set_solver. }
    split; [left; split; [exact Hrec | rewrite Hrec; exact Hnot]|].
    split; [intros [_ H]; exact (Hno H)|].
    split; [|intros H; destruct (Hno H)].
    intros Hin. apply bool_decide_eq_true in Hin. rewrite Hrec in Hin.
    destruct (Hnot Hin).
  - split; [right; exists msg; split; [reflexivity | apply dom_error_result]|].
    split.
    + intros [Hrec _]. rewrite dom_error_result in Hrec.
      apply Hnot. rewrite <- Hrec. set_solver.
    + split; [intros _; eauto|].
      intros _. apply bool_decide_eq_true. rewrite dom_error_result. set_solver.
Qed.

(** ** The refusals of the upstream *)

Lemma lookup_refused (env : Env) (location : string) (log : list Request)
    (code : Z) (d : gmap string value) (msg : option string) :
  key_set env ->
  upstream env (weather_request env location)
    = Return {| status_code := code; json := Return (VDict d) |} ->
  code <> 200 ->
  d !! "message" = VStr <$> msg ->
  get_weather_data env location log
    = (Return (error_result
         ("Error fetching weather for " +:+ location +:+ ": "
          +:+ str_capitalize (default "Unknown error" msg))),
       (log ++ [weather_request env location])%list).
Proof.
  intros Hkey Hup Hcode Hmsg. run_lookup. pass_guard Hkey. rewrite Hup.
  cbn [json status_code get].
  destruct (Z.eqb_spec code 200) as [E|_]; [destruct (Hcode E)|].
  rewrite Hmsg. destruct msg as [m|]; reflexivity.
Qed.

(** What the view of [/] does with an error result of the lookup. *)
Lemma index_lookup_error (env : Env) (request : HttpRequest)
    (location msg : string) (log log' : list Request) :
  key_set env ->
  method request = POST ->
  form_get (form request) "location" = Some location ->
  location <> "" ->
  msg <> "" ->
  get_weather_data env location log = (Return (error_result msg), log') ->
  index env request log = (Return (ErrorPage (VStr msg)), log').
Proof.
  intros Hkey Hpost Hform Hloc Hmsg Hrun. unfold index. pass_guard Hkey.
  rewrite Hpost, Hform. cbn [truthy].
  apply String.eqb_neq in Hloc. rewrite Hloc. cbn [negb].
  cbv [mbind Eff_bind]. rewrite Hrun.
  rewrite bool_decide_eq_true_2
    by (rewrite dom_error_result; apply elem_of_singleton; reflexivity).
  unfold lift at 1. cbn [subscript]. unfold error_result at 1.
  rewrite lookup_singleton_eq. cbv [mret Eff_ret lift]. cbn [fst snd].
  erewrite render_error; [reflexivity | |].
  - rewrite lookup_insert_ne by discriminate. apply lookup_singleton_eq.
  - cbn [truthy]. apply String.eqb_neq in Hmsg. rewrite Hmsg. reflexivity.
Qed.

(** ** The empty location *)

(** C2, as the code has it: with the key set, a POST to [/] whose form has no
    [location] field, or an empty one, is answered with the page that asks
    for a location, and sends nothing. *)
Theorem empty_location_no_request (env : Env) (request : HttpRequest)
    (log : list Request) :
  key_set env ->
  method request = POST ->
  form_get (form request) "location" = None
  \/ form_get (form request) "location" = Some "" ->
  index env request log = (Return (ErrorPage please_enter), log).
Proof.
  intros Hkey Hpost Hform. unfold index. pass_guard Hkey. rewrite Hpost.
  assert (Hpage : render_template_string
                    (<["weather_data" := VNone]> {[ "error" := please_enter ]})
                  = Return (ErrorPage please_enter)).
  { apply render_error; [|reflexivity].
    rewrite lookup_insert_ne by discriminate. apply lookup_singleton_eq. }
  destruct Hform as [-> | ->]; cbv [mbind Eff_bind mret Eff_ret lift truthy];
    cbn [String.eqb negb fst snd]; rewrite Hpage; reflexivity.
Qed.

Lemma empty_location_no_request_witness :
  key_set blank_world
  /\ index blank_world {| method := POST; path := "/"; form := [] |} []
     = (Return (ErrorPage please_enter), [])
  /\ index blank_world
       {| method := POST; path := "/"; form := [("location", "")] |} []
     = (Return (ErrorPage please_enter), []).
Proof.
  split; [apply world_key_set; discriminate|]. split.
  - apply (empty_location_no_request blank_world
             {| method := POST; path := "/"; form := [] |} []);
      [apply world_key_set; discriminate | reflexivity | left; reflexivity].
  - apply (empty_location_no_request blank_world
             {| method := POST; path := "/"; form := [("location", "")] |} []);
      [apply world_key_set; discriminate | reflexivity | right; reflexivity].
Defined.

(** C2, as stated, fails on a location of white space: the blank is true for
    Python, so the lookup runs, one request goes out, and the page shows the
    answer of the upstream instead of the request for a location. *)
Lemma blank_location_is_looked_up :
  whitespace_only " " = true
  /\ key_set blank_world
  /\ index blank_world blank_post []
     = (Return (ErrorPage
          (VStr "Error fetching weather for  : City not found")),
        [weather_request blank_world " "])
  /\ index blank_world blank_post [] <> (Return (ErrorPage please_enter), []).
Proof.
  assert (Hkey : key_set blank_world) by (apply world_key_set; discriminate).
  assert (Hrun : index blank_world blank_post []
                 = (Return (ErrorPage
                      (VStr "Error fetching weather for  : City not found")),
                    [weather_request blank_world " "])).
  { apply (index_lookup_error blank_world blank_post " ");
      [exact Hkey | reflexivity | reflexivity | discriminate | discriminate |].
    apply (lookup_refused blank_world " " [] 404
             {[ "message" := VStr "city not found" ]}
             (Some "city not found"));
      [exact Hkey | reflexivity | discriminate | apply lookup_singleton_eq]. }
  split; [reflexivity|]. split; [exact Hkey|]. split; [exact Hrun|].
  rewrite Hrun. discriminate.
Qed.

Lemma error_result_inj (a b : string) :
  error_result a = error_result b -> a = b.
Proof.
  intros H. apply (f_equal (fun d => d !! "error")) in H.
  unfold error_result in H. rewrite !lookup_singleton_eq in H. congruence.
Qed.

(** C5, as the code has it: with the key set, when the upstream answers a
    status outside 200..299 with a JSON object whose [message] is a string of
    ASCII characters or is absent, the lookup returns the error that quotes
    the location and the message put through [str.capitalize] (first
    character upper-cased, all the others lower-cased), with "Unknown error"
    standing for an absent message; one request is sent. *)
Theorem upstream_refusal_message (env : Env) (location : string)
    (log : list Request) (code : Z) (d : gmap string value)
    (msg : option string) :
  key_set env ->
  upstream env (weather_request env location)
    = Return {| status_code := code; json := Return (VDict d) |} ->
  is_2xx code = false ->
  d !! "message" = VStr <$> msg ->
  (forall m : string, msg = Some m -> is_ascii m = true) ->
  get_weather_data env location log
    = (Return (error_result
         ("Error fetching weather for " +:+ location +:+ ": "
          +:+ str_capitalize (default "Unknown error" msg))),
       (log ++ [weather_request env location])%list)
  /\ (msg = None ->
      get_weather_data env location log
        = (Return (error_result
             ("Error fetching weather for " +:+ location
              +:+ ": Unknown error")),
           (log ++ [weather_request env location])%list)).
Proof.
  intros Hkey Hup Hcode Hmsg _.
  assert (Hne : code <> 200).
  { intros ->. discriminate Hcode. }
  pose proof (lookup_refused env location log code d msg Hkey Hup Hne Hmsg)
    as Hrun.
  split; [exact Hrun|]. intros ->. exact Hrun.
Qed.

Lemma upstream_refusal_message_witness :
  key_set blank_world
  /\ is_2xx 404 = false
  /\ get_weather_data blank_world "London" []
     = (Return (error_result
          "Error fetching weather for London: City not found"),
        [weather_request blank_world "London"]).
Proof.
  split; [apply world_key_set; discriminate|]. split; [reflexivity|].
  apply (upstream_refusal_message blank_world "London" [] 404
           {[ "message" := VStr "city not found" ]} (Some "city not found"));
    [apply world_key_set; discriminate | reflexivity | reflexivity
    | apply lookup_singleton_eq | intros m [= <-]; reflexivity].
Defined.

(** C5, as stated, fails on a message with a capital after its first letter:
    the status is 401, the message of the upstream is "Invalid API key", and
    the error carries "Invalid api key", which is not that message with its
    first letter capitalised. *)
Lemma refusal_message_is_lowercased :
  key_set refused_world
  /\ is_2xx 401 = false
  /\ get_weather_data refused_world "London" []
     = (Return (error_result
          "Error fetching weather for London: Invalid api key"),
        [weather_request refused_world "London"])
  /\ capitalize_first_letter "Invalid API key" = "Invalid API key"
  /\ occurs_in (capitalize_first_letter "Invalid API key")
       "Error fetching weather for London: Invalid api key" = false.
Proof.
  assert (Hkey : key_set refused_world) by (apply world_key_set; discriminate).
  split; [exact Hkey|]. split; [reflexivity|]. split; [|split; reflexivity].
  apply (lookup_refused refused_world "London" [] 401
           (<["cod" := VInt 401]> {[ "message" := VStr "Invalid API key" ]})
           (Some "Invalid API key"));
    [exact Hkey | reflexivity | discriminate |].
  rewrite lookup_insert_ne by discriminate. apply lookup_singleton_eq.
Qed.

(** ** The malformed answers *)

(** Reads what a list of extracted fields says about the subscripts. *)
Ltac read_extracted :=
  repeat match goal with
  | H : Forall (extracted _) (_ :: _) |- _ =>
      apply Forall_cons in H; destruct H as [[? [? ?]] H]
  | H : Forall (extracted _) [] |- _ => clear H
  | H : description_path = description_path -> _ |- _ =>
      specialize (H eq_refl); destruct H as [? ->]
  | H : _ = description_path -> _ |- _ => clear H
  end.

(** C3, as the code has it: with the key set and a 200 answer, when the
    fields before a path of the body are extracted and that path stops at an
    object without the next key, the lookup returns the error of a malformed
    response naming that key, after its one request. *)
Theorem lookup_missing_key (env : Env) (location : string)
    (log : list Request) (data : value)
    (before after : list (list key)) (p : list key) (k : key) :
  key_set env ->
  upstream env (weather_request env location)
    = Return {| status_code := 200; json := Return data |} ->
  expected_fields = (before ++ p :: after)%list ->
  Forall (extracted data) before ->
  resolve data p = Raise (KeyError k) ->
  get_weather_data env location log
    = (Return (missing_key_error k),
       (log ++ [weather_request env location])%list).
Proof.
  intros Hkey Hup Hsplit Hbefore Hfail. run_lookup. pass_guard Hkey.
  rewrite Hup. cbn [json status_code]. change (200 =? 200) with true.
  cbv iota. unfold expected_fields in Hsplit.
  destruct before as [|b1 [|b2 [|b3 [|b4 [|b5 rest]]]]];
    cbn [app] in Hsplit; simplify_eq; read_extracted;
    try (destruct rest; discriminate);
    unfold name_path, temp_path, description_path, humidity_path, speed_path
      in *;
    cbn [resolve] in *; cbv [mbind Outcome_bind] in *;
    repeat (case_match; simplify_eq); reflexivity.
Qed.

Lemma lookup_missing_key_witness :
  key_set windless_world
  /\ resolve no_wind_body speed_path = Raise (KeyError (KStr "wind"))
  /\ missing_key_error (KStr "wind")
     = error_result
         "Unexpected API response format: Missing key 'wind'. Please try again."
  /\ get_weather_data windless_world "London" []
     = (Return (missing_key_error (KStr "wind")),
        [weather_request windless_world "London"]).
Proof.
  assert (Hkey : key_set windless_world)
    by (apply world_key_set; discriminate).
  assert (Hwind : resolve no_wind_body speed_path
                  = Raise (KeyError (KStr "wind"))).
  { unfold no_wind_body, speed_path. cbn [resolve]. read_body. reflexivity. }
  split; [exact Hkey|]. split; [exact Hwind|]. split; [reflexivity|].
  apply (lookup_missing_key windless_world "London" [] no_wind_body
           [name_path; temp_path; description_path; humidity_path] []
           speed_path (KStr "wind") Hkey);
    [reflexivity | reflexivity | | exact Hwind].
  repeat first [apply List.Forall_cons | apply List.Forall_nil];
    unfold extracted, no_wind_body, name_path, temp_path, description_path,
      humidity_path;
    cbn [resolve]; cbv [mbind Outcome_bind]; read_body;
    (eexists; split; [reflexivity|]);
    first [discriminate | intros _; eexists; reflexivity].
Defined.

(** C3, as stated, fails on a body whose list of weather conditions is
    empty: [weather[0].description] is missing, the subscript raises an
    [IndexError], and the lookup returns the generic error, which names no
    field, instead of the error of a malformed response. *)
Lemma empty_conditions_not_named :
  key_set cloudless_world
  /\ resolve no_conditions_body description_path
     = Raise (IndexError "list index out of range")
  /\ get_weather_data cloudless_world "London" []
     = (Return (error_result
          "An unexpected error occurred: list index out of range"),
        [weather_request cloudless_world "London"])
  /\ (forall k : key,
        get_weather_data cloudless_world "London" []
        <> (Return (missing_key_error k),
            [weather_request cloudless_world "London"])).
Proof.
  assert (Hkey : key_set cloudless_world)
    by (apply world_key_set; discriminate).
  assert (Hrun : get_weather_data cloudless_world "London" []
                 = (Return (error_result
                      "An unexpected error occurred: list index out of range"),
                    [weather_request cloudless_world "London"])).
  { run_lookup. pass_guard Hkey.
    cbn [upstream cloudless_world world answering].
    unfold no_conditions_body. read_body. reflexivity. }
  split; [exact Hkey|]. split.
  - unfold no_conditions_body, description_path. cbn [resolve]. read_body.
    reflexivity.
  - split; [exact Hrun|]. intros k. rewrite Hrun. intros H.
    assert (Hd : error_result
                   "An unexpected error occurred: list index out of range"
                 = missing_key_error k) by congruence.
    apply error_result_inj in Hd. cbn [String.append] in Hd. discriminate Hd.
Qed.

(** ** The key and what the user sees *)

Lemma try_block_independent (env1 env2 : Env) (location : string)
    (log1 log2 : list Request) :
  now env1 = now env2 ->
  upstream env1 (weather_request env1 location)
    = upstream env2 (weather_request env2 location) ->
  (try_block env1 location log1).1 = (try_block env2 location log2).1.
Proof.
  intros Hnow Hup. run_block. rewrite Hup, Hnow.
  destruct (upstream env2 (weather_request env2 location)) as [r|e];
    [|reflexivity].
  repeat case_match; reflexivity.
Qed.

Lemma lookup_independent (env1 env2 : Env) (location : string)
    (log1 log2 : list Request) :
  key_set env1 -> key_set env2 ->
  now env1 = now env2 ->
  upstream env1 (weather_request env1 location)
    = upstream env2 (weather_request env2 location) ->
  (get_weather_data env1 location log1).1
    = (get_weather_data env2 location log2).1.
Proof.
  intros Hk1 Hk2 Hnow Hup.
  rewrite (lookup_unfold env1 location log1 Hk1),
    (lookup_unfold env2 location log2 Hk2).
  pose proof (try_block_independent env1 env2 location log1 log2 Hnow Hup)
    as Hblock.
  unfold try_except.
  destruct (try_block env1 location log1) as [[d1|e1] l1];
    destruct (try_block env2 location log2) as [[d2|e2] l2];
    cbn [fst] in Hblock; simplify_eq; [reflexivity|].
  destruct e2; reflexivity.
Qed.

(** C10, as the code has it: two worlds whose keys are both set, whose
    clocks agree and whose upstreams behave alike on the request of every
    location yield the same lookup result and the same page, whatever the
    two keys are. *)
Theorem key_does_not_change_the_page (env1 env2 : Env) :
  key_set env1 -> key_set env2 ->
  now env1 = now env2 ->
  (forall location : string,
     upstream env1 (weather_request env1 location)
       = upstream env2 (weather_request env2 location)) ->
  (forall (location : string) (log1 log2 : list Request),
     (get_weather_data env1 location log1).1
       = (get_weather_data env2 location log2).1)
  /\ (forall (request : HttpRequest) (log1 log2 : list Request),
       (index env1 request log1).1 = (index env2 request log2).1).
Proof.
  intros Hk1 Hk2 Hnow Hup. split.
  - intros location log1 log2.
    exact (lookup_independent env1 env2 location log1 log2 Hk1 Hk2 Hnow
             (Hup location)).
  - intros request log1 log2. unfold index.
    pass_guard Hk1. pass_guard Hk2.
    destruct (method request); [reflexivity|].
    destruct (form_get (form request) "location") as [location|];
      [|reflexivity].
    destruct (truthy (VStr location)); [|reflexivity].
    pose proof (lookup_independent env1 env2 location log1 log2 Hk1 Hk2 Hnow
                  (Hup location)) as Hsame.
    destruct (lookup_returns env1 location log1) as (d1 & l1 & H1).
    destruct (lookup_returns env2 location log2) as (d2 & l2 & H2).
    rewrite H1, H2 in Hsame. cbn [fst] in Hsame. simplify_eq.
    cbv [mbind Eff_bind]. rewrite H1, H2.
    destruct (bool_decide ("error" ∈ dom d2)).
    + unfold lift at 2 4.
      destruct (subscript (VDict d2) (KStr "error")); reflexivity.
    + reflexivity.
Qed.

Lemma key_does_not_change_the_page_witness :
  key_set alpha_world /\ key_set beta_world
  /\ (get_weather_data alpha_world "London" []).1
     = (get_weather_data beta_world "London" []).1
  /\ (index alpha_world london_post []).1
     = (index beta_world london_post []).1.
Proof.
  assert (Ha : key_set alpha_world) by (apply world_key_set; discriminate).
  assert (Hb : key_set beta_world) by (apply world_key_set; discriminate).
  destruct (key_does_not_change_the_page alpha_world beta_world Ha Hb
              eq_refl (fun _ => eq_refl)) as [Hlookup Hpage].
  split; [exact Ha|]. split; [exact Hb|]. split.
  - exact (Hlookup "London" [] []).
  - exact (Hpage london_post [] []).
Defined.

(** C10, as stated, fails on its last part: when the upstream cannot be
    reached, the description of the failure quotes the URL of the request,
    the lookup copies it into its network error, and the page shows the key
    to the user. *)
Lemma network_error_shows_the_key :
  OPENWEATHER_API_KEY offline_world = Some "SECRET"
  /\ get_weather_data offline_world "London" []
     = (Return (error_result offline_message),
        [weather_request offline_world "London"])
  /\ index offline_world london_post []
     = (Return (ErrorPage (VStr offline_message)),
        [weather_request offline_world "London"])
  /\ occurs_in "SECRET" offline_message = true.
Proof.
  assert (Hkey : key_set offline_world) by (apply world_key_set; discriminate).
  assert (Hrun : get_weather_data offline_world "London" []
                 = (Return (error_result offline_message),
                    [weather_request offline_world "London"])).
  { rewrite (lookup_unfold offline_world "London" [] Hkey). unfold try_except.
    rewrite (try_block_request_fails offline_world "London" [] _ eq_refl).
    reflexivity. }
  split; [reflexivity|]. split; [exact Hrun|]. split; [|reflexivity].
  apply (index_lookup_error offline_world london_post "London");
    [exact Hkey | reflexivity | reflexivity | discriminate | discriminate
    | exact Hrun].
Qed.

(** * Further properties of the lookup and of the routes *)

Lemma truthy_key_set (env : Env) :
  truthy (of_optional (OPENWEATHER_API_KEY env)) = true -> key_set env.
Proof.
  destruct (OPENWEATHER_API_KEY env) as [k|] eqn:E; simpl; [|discriminate].
  intros H. exists k. split; [exact E|].
  apply String.eqb_neq, negb_true_iff. exact H.
Qed.

Lemma error_in_error_result (msg : string) : "error" ∈ dom (error_result msg).
Proof. rewrite dom_error_result. apply elem_of_singleton. reflexivity. Qed.

Lemma error_not_in_record (d : gmap string value) :
  dom d = record_keys -> "error" ∉ dom d.
Proof.
  intros ->. unfold record_keys. rewrite !elem_of_union, !elem_of_singleton.
  intuition discriminate.
Qed.

(** Unfolds the five paths in the hypotheses and in the goal. *)
Ltac read_paths :=
  unfold name_path, temp_path, description_path, humidity_path, speed_path
    in *;
  cbn [resolve] in *; cbv [mbind Outcome_bind] in *.

(** ** The record of a success *)

Lemma lookup_extracts (env : Env) (location : string) (log : list Request)
    (data n t h w : value) (s : string) :
  key_set env ->
  upstream env (weather_request env location)
    = Return {| status_code := 200; json := Return data |} ->
  resolve data name_path = Return n ->
  resolve data temp_path = Return t ->
  resolve data description_path = Return (VStr s) ->
  resolve data humidity_path = Return h ->
  resolve data speed_path = Return w ->
  get_weather_data env location log
    = (Return (weather_record n t (str_capitalize s) h w
                 (strftime (now env))),
       (log ++ [weather_request env location])%list).
Proof.
  intros Hkey Hup Hn Ht Hs Hh Hw. run_lookup. pass_guard Hkey.
  rewrite Hup. cbn [json status_code]. change (200 =? 200) with true.
  cbv iota. read_paths.
  repeat (case_match; cbn [capitalize] in *; simplify_eq); reflexivity.
Qed.

(** X1: with the key set and a 200 answer, when the five paths of the body
    lead to values and the description is a string of ASCII characters, the
    lookup returns the record of those values, with the description
    capitalised and the time formatted from the clock, after one request. *)
Theorem lookup_success (env : Env) (location : string) (log : list Request)
    (data n t h w : value) (s : string) :
  key_set env ->
  upstream env (weather_request env location)
    = Return {| status_code := 200; json := Return data |} ->
  resolve data name_path = Return n ->
  resolve data temp_path = Return t ->
  resolve data description_path = Return (VStr s) ->
  resolve data humidity_path = Return h ->
  resolve data speed_path = Return w ->
  is_ascii s = true ->
  get_weather_data env location log
    = (Return (weather_record n t (str_capitalize s) h w
                 (strftime (now env))),
       (log ++ [weather_request env location])%list).
Proof.
  intros Hkey Hup Hn Ht Hs Hh Hw _.
  exact (lookup_extracts env location log data n t h w s
           Hkey Hup Hn Ht Hs Hh Hw).
Qed.

Lemma lookup_success_witness :
  key_set alpha_world
  /\ get_weather_data alpha_world "Greater London" []
     = (Return (weather_record (VStr "London") (VFloat 15.0%float) "Clear sky"
                  (VInt 70) (VFloat 3.2%float) "2024-03-07 12:00:05"),
        [weather_request alpha_world "Greater London"]).
Proof.
  assert (Hkey : key_set alpha_world) by (apply world_key_set; discriminate).
  split; [exact Hkey|].
  apply (lookup_success alpha_world "Greater London" [] london_body
           (VStr "London") (VFloat 15.0%float) (VInt 70) (VFloat 3.2%float)
           "clear sky" Hkey eq_refl);
    [| | | | | reflexivity];
    unfold london_body; read_paths; read_body; reflexivity.
Defined.

(** What the try block returns without an [error] key comes from a 200
    answer whose five fields were extracted. *)
Lemma try_block_record (env : Env) (location : string)
    (log log' : list Request) (d : gmap string value) :
  try_block env location log = (Return d, log') ->
  "error" ∉ dom d ->
  exists (data n t h w : value) (s : string),
    upstream env (weather_request env location)
      = Return {| status_code := 200; json := Return data |}
    /\ resolve data name_path = Return n
    /\ resolve data temp_path = Return t
    /\ resolve data description_path = Return (VStr s)
    /\ resolve data humidity_path = Return h
    /\ resolve data speed_path = Return w
    /\ d = weather_record n t (str_capitalize s) h w (strftime (now env)).
Proof.
  run_block.
  destruct (upstream env (weather_request env location)) as [[code body]|e];
    [|discriminate].
  cbn [json status_code]. destruct body as [data|e]; [|discriminate].
  destruct (Z.eqb_spec code 200) as [->|_].
  - destruct (subscript data (KStr "name")) as [n|] eqn:En; [|discriminate].
    destruct (subscript data (KStr "main")) as [m|] eqn:Em; [|discriminate].
    destruct (subscript m (KStr "temp")) as [t|] eqn:Et; [|discriminate].
    destruct (subscript data (KStr "weather")) as [ws|] eqn:Ews;
      [|discriminate].
    destruct (subscript ws (KInt 0)) as [w0|] eqn:Ew0; [|discriminate].
    destruct (subscript w0 (KStr "description")) as [text|] eqn:Etext;
      [|discriminate].
    destruct text as [| | | |s| |]; cbn [capitalize]; try discriminate.
    destruct (subscript m (KStr "humidity")) as [h|] eqn:Eh; [|discriminate].
    destruct (subscript data (KStr "wind")) as [wd|] eqn:Ewd; [|discriminate].
    destruct (subscript wd (KStr "speed")) as [w|] eqn:Ew; [|discriminate].
    intros [= <- _] _. exists data, n, t, h, w, s. read_paths.
    rewrite En, Em, Et, Ews, Ew0, Etext, Eh, Ewd, Ew.
    repeat split; reflexivity.
  - repeat case_match; intros [= <- _] Hno; try discriminate.
    destruct (Hno (error_in_error_result _)).
Qed.

(** ** No record without a 200 *)

(** X2: whenever a lookup returns a dict without the key [error], the key
    was set, the upstream answered with status 200 and a JSON body, the five
    paths of that body led to values, the description being a string, and
    the dict is a record of those values: the name, the temperature, the
    humidity and the wind speed as they were extracted, the time formatted
    from the clock, and a description that, for ASCII text, is the extracted
    one capitalised. *)
Theorem record_only_from_200 (env : Env) (location : string)
    (log log' : list Request) (d : gmap string value) :
  get_weather_data env location log = (Return d, log') ->
  "error" ∉ dom d ->
  key_set env
  /\ exists (data n t h w : value) (s description : string),
       upstream env (weather_request env location)
         = Return {| status_code := 200; json := Return data |}
       /\ resolve data name_path = Return n
       /\ resolve data temp_path = Return t
       /\ resolve data description_path = Return (VStr s)
       /\ resolve data humidity_path = Return h
       /\ resolve data speed_path = Return w
       /\ d = weather_record n t description h w (strftime (now env))
       /\ (is_ascii s = true -> description = str_capitalize s).
Proof.
  intros Hrun Hno. unfold get_weather_data in Hrun.
  destruct (truthy (of_optional (OPENWEATHER_API_KEY env))) eqn:Hkey;
    cbn [negb] in Hrun.
  - split; [exact (truthy_key_set env Hkey)|].
    unfold try_except in Hrun.
    destruct (try_block env location log) as [[d0|e] log0] eqn:Hblock.
    + injection Hrun as <- _.
      destruct (try_block_record _ _ _ _ _ Hblock Hno)
        as (data & n & t & h & w & s & Hup & Hn & Ht & Hs & Hh & Hw & Hd).
      exists data, n, t, h, w, s, (str_capitalize s).
      repeat split; assumption || reflexivity.
    + destruct (except_clauses_return e log0) as [msg Hmsg].
      rewrite Hmsg in Hrun. injection Hrun as <- _.
      destruct (Hno (error_in_error_result msg)).
  - injection Hrun as <- _. destruct (Hno (error_in_error_result _)).
Qed.

Lemma alpha_world_run :
  get_weather_data alpha_world "London" []
    = (Return (london_record "2024-03-07 12:00:05"),
       [weather_request alpha_world "London"]).
Proof.
  assert (Hkey : key_set alpha_world) by (apply world_key_set; discriminate).
  run_lookup. pass_guard Hkey. cbn [upstream alpha_world world answering].
  unfold london_body. read_body. reflexivity.
Qed.

Lemma london_record_keys (current_time : string) :
  dom (london_record current_time) = record_keys.
Proof.
  unfold london_record, record_keys. rewrite !dom_insert_L, dom_empty_L.
  set_solver.
Qed.

Lemma record_only_from_200_witness :
  get_weather_data alpha_world "London" []
    = (Return (london_record "2024-03-07 12:00:05"),
       [weather_request alpha_world "London"])
  /\ ("error" ∉ dom (london_record "2024-03-07 12:00:05"))
  /\ key_set alpha_world
  /\ exists (data n t h w : value) (s description : string),
       upstream alpha_world (weather_request alpha_world "London")
         = Return {| status_code := 200; json := Return data |}
       /\ resolve data name_path = Return n
       /\ resolve data temp_path = Return t
       /\ resolve data description_path = Return (VStr s)
       /\ resolve data humidity_path = Return h
       /\ resolve data speed_path = Return w
       /\ london_record "2024-03-07 12:00:05"
          = weather_record n t description h w (strftime (now alpha_world))
       /\ (is_ascii s = true -> description = str_capitalize s).
Proof.
  assert (Hno : "error" ∉ dom (london_record "2024-03-07 12:00:05"))
    by (apply error_not_in_record, london_record_keys).
  split; [exact alpha_world_run|]. split; [exact Hno|].
  exact (record_only_from_200 alpha_world "London" [] _ _ alpha_world_run Hno).
Defined.

(** ** Answers that are not a success *)

(** X3: only the status 200 counts as a success.  With the key set, an
    answer of any other status, be it another 2xx, whose body is an object
    without [message] gives the error "Unknown error", whatever else the
    body holds. *)
Theorem only_200_is_success (env : Env) (location : string)
    (log : list Request) (code : Z) (d : gmap string value) :
  key_set env ->
  upstream env (weather_request env location)
    = Return {| status_code := code; json := Return (VDict d) |} ->
  code <> 200 ->
  d !! "message" = None ->
  get_weather_data env location log
    = (Return (error_result
         ("Error fetching weather for " +:+ location +:+ ": Unknown error")),
       (log ++ [weather_request env location])%list).
Proof.
  intros Hkey Hup Hcode Hmsg.
  exact (lookup_refused env location log code d None Hkey Hup Hcode Hmsg).
Qed.

Lemma only_200_is_success_witness :
  key_set created_world
  /\ is_2xx 201 = true
  /\ get_weather_data created_world "London" []
     = (Return (error_result
          "Error fetching weather for London: Unknown error"),
        [weather_request created_world "London"]).
Proof.
  assert (Hkey : key_set created_world)
    by (apply world_key_set; discriminate).
  split; [exact Hkey|]. split; [reflexivity|].
  apply (only_200_is_success created_world "London" [] 201 _ Hkey eq_refl);
    [discriminate|].
  repeat (rewrite lookup_insert_ne by discriminate).
  apply lookup_singleton_ne. discriminate.
Defined.

(** X4: with the key set, an answer of a status other than 200 whose body is
    an object with a [message] that is not a string is not reported as a
    refusal of the upstream: [capitalize] raises an [AttributeError] and the
    lookup returns the generic error that quotes it. *)
Theorem refusal_with_other_message (env : Env) (location : string)
    (log : list Request) (code : Z) (d : gmap string value) (v : value) :
  key_set env ->
  upstream env (weather_request env location)
    = Return {| status_code := code; json := Return (VDict d) |} ->
  code <> 200 ->
  d !! "message" = Some v ->
  (forall s : string, v <> VStr s) ->
  get_weather_data env location log
    = (Return (error_result
         ("An unexpected error occurred: '" +:+ type_name v
          +:+ "' object has no attribute 'capitalize'")),
       (log ++ [weather_request env location])%list).
Proof.
  intros Hkey Hup Hcode Hmsg Hv. run_lookup. pass_guard Hkey. rewrite Hup.
  cbn [json status_code get].
  destruct (Z.eqb_spec code 200) as [E|_]; [destruct (Hcode E)|].
  rewrite Hmsg. cbn [default].
  destruct v; try reflexivity. destruct (Hv s eq_refl).
Qed.

Lemma refusal_with_other_message_witness :
  key_set numbered_world
  /\ get_weather_data numbered_world "London" []
     = (Return (error_result
          "An unexpected error occurred: 'int' object has no attribute 'capitalize'"),
        [weather_request numbered_world "London"]).
Proof.
  assert (Hkey : key_set numbered_world)
    by (apply world_key_set; discriminate).
  split; [exact Hkey|].
  apply (refusal_with_other_message numbered_world "London" [] 404 _ (VInt 0)
           Hkey eq_refl); [discriminate | | discriminate].
  rewrite lookup_insert_ne by discriminate. apply lookup_singleton_eq.
Defined.

(** X5: the body is decoded before the status is read.  With the key set,
    when [response.json()] raises, the status plays no part: the lookup
    returns what the except clauses make of the exception, so a decoding
    error that is a [RequestException] is reported as a network error
    although the upstream answered. *)
Theorem undecodable_body (env : Env) (location : string)
    (log : list Request) (r : Response) (e : Exception) :
  key_set env ->
  upstream env (weather_request env location) = Return r ->
  json r = Raise e ->
  get_weather_data env location log
    = except_clauses e (log ++ [weather_request env location])%list
  /\ (forall msg : string,
        e = RequestException msg ->
        get_weather_data env location log
          = (Return (error_result
               ("Network error: " +:+ msg
                +:+ ". Check internet connection or API endpoint.")),
             (log ++ [weather_request env location])%list)).
Proof.
  intros Hkey Hup Hjson.
  assert (Hrun : get_weather_data env location log
                 = except_clauses e
                     (log ++ [weather_request env location])%list).
  { rewrite (lookup_unfold env location log Hkey). unfold try_except.
    rewrite (try_block_not_json env location log r e Hup Hjson).
    reflexivity. }
  split; [exact Hrun|]. intros msg ->. rewrite Hrun. reflexivity.
Qed.

Lemma undecodable_body_witness :
  key_set gateway_world
  /\ get_weather_data gateway_world "London" []
     = (Return (error_result
          "Network error: Expecting value: line 1 column 1 (char 0). Check internet connection or API endpoint."),
        [weather_request gateway_world "London"]).
Proof.
  assert (Hkey : key_set gateway_world)
    by (apply world_key_set; discriminate).
  split; [exact Hkey|].
  destruct (undecodable_body gateway_world "London" [] _ _ Hkey
              eq_refl eq_refl) as [_ Hnet].
  exact (Hnet _ eq_refl).
Defined.

(** X6: with the key set and a 200 answer, a body that is not an object (a
    list, a string, a number, [null]) is not reported as a malformed
    response: the first subscript raises a [TypeError] and the lookup returns
    the generic error that quotes it. *)
Theorem body_not_an_object (env : Env) (location : string)
    (log : list Request) (data : value) :
  key_set env ->
  upstream env (weather_request env location)
    = Return {| status_code := 200; json := Return data |} ->
  (forall d : gmap string value, data <> VDict d) ->
  exists msg : string,
    subscript data (KStr "name") = Raise (TypeError msg)
    /\ get_weather_data env location log
       = (Return (error_result ("An unexpected error occurred: " +:+ msg)),
          (log ++ [weather_request env location])%list).
Proof.
  intros Hkey Hup Hdata. run_lookup. pass_guard Hkey. rewrite Hup.
  cbn [json status_code]. change (200 =? 200) with true. cbv iota.
  destruct data; try (eexists; split; reflexivity).
  destruct (Hdata d eq_refl).
Qed.

Lemma body_not_an_object_witness :
  key_set listing_world
  /\ exists msg : string,
       subscript (VList [london_body]) (KStr "name") = Raise (TypeError msg)
       /\ get_weather_data listing_world "London" []
          = (Return (error_result ("An unexpected error occurred: " +:+ msg)),
             [weather_request listing_world "London"]).
Proof.
  assert (Hkey : key_set listing_world)
    by (apply world_key_set; discriminate).
  split; [exact Hkey|].
  apply (body_not_an_object listing_world "London" [] (VList [london_body])
           Hkey eq_refl).
  discriminate.
Defined.

(** ** The view of [/] after a lookup *)

Lemma try_block_error_text (env : Env) (location : string)
    (log log' : list Request) (d : gmap string value) :
  try_block env location log = (Return d, log') ->
  (exists msg : string, d = error_result msg /\ msg <> "")
  \/ dom d = record_keys.
Proof.
  run_block. destruct (upstream env (weather_request env location)) as [r|e];
    [|discriminate].
  repeat case_match; intros [= <- _]; try discriminate.
  - right. rewrite !dom_insert_L, dom_empty_L. unfold record_keys. set_solver.
  - left. eexists. split; [reflexivity|]. cbn [String.append]. discriminate.
Qed.

Lemma except_clauses_text (e : Exception) (log : list Request) :
  exists msg : string,
    except_clauses e log = (Return (error_result msg), log) /\ msg <> "".
Proof.
  destruct e; eexists; (split; [reflexivity|]); cbn [String.append];
    discriminate.
Qed.

(** With the key set, a lookup sends its one request and returns either an
    error result with a text or a record. *)
Lemma lookup_cases (env : Env) (location : string) (log : list Request) :
  key_set env ->
  exists d : gmap string value,
    get_weather_data env location log
      = (Return d, (log ++ [weather_request env location])%list)
    /\ ((exists msg : string, d = error_result msg /\ msg <> "")
        \/ dom d = record_keys).
Proof.
  intros Hkey. rewrite (lookup_unfold env location log Hkey).
  unfold try_except.
  pose proof (try_block_log env location log) as Hlog.
  destruct (try_block env location log) as [[d|e] log'] eqn:Hblock;
    cbn [snd] in Hlog; subst log'.
  - exists d. split; [reflexivity|].
    exact (try_block_error_text _ _ _ _ _ Hblock).
  - destruct (except_clauses_text e
                (log ++ [weather_request env location])%list)
      as (msg & Hmsg & Hne).
    exists (error_result msg). split; [exact Hmsg|]. left. eauto.
Qed.

(** What the view of [/] does with a record of the lookup. *)
Lemma index_lookup_record (env : Env) (request : HttpRequest)
    (location : string) (log log' : list Request) (d : gmap string value) :
  key_set env ->
  method request = POST ->
  form_get (form request) "location" = Some location ->
  location <> "" ->
  "error" ∉ dom d ->
  get_weather_data env location log = (Return d, log') ->
  index env request log
    = (render_template_string
         (<["weather_data" := VDict d]> {[ "error" := VNone ]}), log').
Proof.
  intros Hkey Hpost Hform Hloc Hno Hrun. unfold index. pass_guard Hkey.
  rewrite Hpost, Hform. cbn [truthy].
  apply String.eqb_neq in Hloc. rewrite Hloc. cbn [negb].
  cbv [mbind Eff_bind]. rewrite Hrun.
  rewrite bool_decide_eq_false_2 by exact Hno. reflexivity.
Qed.

Lemma format_1f_real (v : value) :
  is_real v = true -> format_1f (Some v) = Return v.
Proof.
  destruct v; cbn [is_real format_1f]; try discriminate; try reflexivity.
  intros ->. reflexivity.
Qed.

Lemma format_1f_not_real (v : value) :
  is_real v = false -> format_1f (Some v) = Raise (format_error v).
Proof.
  destruct v; cbn [is_real format_1f format_error]; try discriminate;
    try reflexivity.
  intros ->. reflexivity.
Qed.

(** The template on a record: the panel when both numbers are numbers, a
    [TypeError] of the first that is not. *)
Lemma render_record (n t h w : value) (s time : string) :
  render_template_string
    (<["weather_data" := VDict (weather_record n t s h w time)]>
       {[ "error" := VNone ]})
  = (temp ← format_1f (Some t);
     wind_speed ← format_1f (Some w);
     Return (WeatherPage (weather_panel n temp s h wind_speed time))).
Proof.
  unfold render_template_string.
  rewrite (lookup_insert_ne _ "weather_data" "error") by discriminate.
  rewrite lookup_singleton_eq. cbn [defined_and_true truthy].
  rewrite lookup_insert_eq. cbn [defined_and_true truthy].
  assert (Hsize : size (weather_record n t s h w time) <> 0%nat).
  { intros H. apply map_size_empty_iff in H.
    apply (insert_non_empty _ _ _ H). }
  apply Nat.eqb_neq in Hsize. rewrite Hsize. cbn [negb attribute].
  clear Hsize. unfold weather_record, weather_panel.
  repeat first [rewrite lookup_insert_eq
               | rewrite lookup_insert_ne by discriminate].
  reflexivity.
Qed.

Lemma weather_record_keys (n t h w : value) (s time : string) :
  dom (weather_record n t s h w time) = record_keys.
Proof.
  unfold weather_record, record_keys. rewrite !dom_insert_L, dom_empty_L.
  set_solver.
Qed.

(** X7: with the key set, a POST to [/] with a location that is not empty,
    answered by the upstream with status 200 and a body whose five fields are
    there, with an ASCII description and, for the temperature and the wind
    speed, numbers that convert to a float, shows the weather panel with the
    extracted values, the description capitalised and the formatted time,
    after one request. *)
Theorem index_shows_weather (env : Env) (request : HttpRequest)
    (location : string) (log : list Request)
    (data n t h w : value) (s : string) :
  key_set env ->
  method request = POST ->
  form_get (form request) "location" = Some location ->
  location <> "" ->
  upstream env (weather_request env location)
    = Return {| status_code := 200; json := Return data |} ->
  resolve data name_path = Return n ->
  resolve data temp_path = Return t ->
  resolve data description_path = Return (VStr s) ->
  resolve data humidity_path = Return h ->
  resolve data speed_path = Return w ->
  is_ascii s = true ->
  is_real t = true ->
  is_real w = true ->
  index env request log
    = (Return (WeatherPage
         (weather_panel n t (str_capitalize s) h w (strftime (now env)))),
       (log ++ [weather_request env location])%list).
Proof.
  intros Hkey Hpost Hform Hloc Hup Hn Ht Hs Hh Hw _ Hrt Hrw.
  rewrite (index_lookup_record env request location log _ _
             Hkey Hpost Hform Hloc
             (error_not_in_record _ (weather_record_keys _ _ _ _ _ _))
             (lookup_extracts env location log data n t h w s
                Hkey Hup Hn Ht Hs Hh Hw)).
  rewrite render_record, (format_1f_real t Hrt), (format_1f_real w Hrw).
  reflexivity.
Qed.

Lemma index_shows_weather_witness :
  key_set alpha_world
  /\ index alpha_world london_post []
     = (Return (WeatherPage
          (weather_panel (VStr "London") (VFloat 15.0%float) "Clear sky"
             (VInt 70) (VFloat 3.2%float) "2024-03-07 12:00:05")),
        [weather_request alpha_world "London"]).
Proof.
  assert (Hkey : key_set alpha_world) by (apply world_key_set; discriminate).
  split; [exact Hkey|].
  apply (index_shows_weather alpha_world london_post "London" [] london_body
           (VStr "London") (VFloat 15.0%float) (VInt 70) (VFloat 3.2%float)
           "clear sky" Hkey eq_refl eq_refl);
    [discriminate | reflexivity | | | | |
    | reflexivity | reflexivity | reflexivity];
    unfold london_body; read_paths; read_body; reflexivity.
Defined.

(** X8: the lookup does not check what it extracts.  With the key set, when
    the upstream answers 200 with the five fields but the temperature or the
    wind speed is not a number that converts to a float, the lookup succeeds
    and the template raises on the ["%.1f"] of the first of the two that
    fails, the temperature before the wind speed: an [OverflowError] on an
    integer, a [TypeError] on anything else; the request to [/] is answered
    with status 500, after the one outbound request. *)
Theorem index_fails_on_text (env : Env) (request : HttpRequest)
    (location : string) (log : list Request)
    (data n t h w : value) (s : string) :
  key_set env ->
  method request = POST ->
  path request = "/" ->
  form_get (form request) "location" = Some location ->
  location <> "" ->
  upstream env (weather_request env location)
    = Return {| status_code := 200; json := Return data |} ->
  resolve data name_path = Return n ->
  resolve data temp_path = Return t ->
  resolve data description_path = Return (VStr s) ->
  resolve data humidity_path = Return h ->
  resolve data speed_path = Return w ->
  is_real t && is_real w = false ->
  index env request log
    = (Raise (format_error (if is_real t then w else t)),
       (log ++ [weather_request env location])%list)
  /\ dispatch env request log
     = ({| status := 500; body := ErrorDocument |},
        (log ++ [weather_request env location])%list).
Proof.
  intros Hkey Hpost Hpath Hform Hloc Hup Hn Ht Hs Hh Hw Hreal.
  assert (Hindex : index env request log
                   = (Raise (format_error (if is_real t then w else t)),
                      (log ++ [weather_request env location])%list)).
  { rewrite (index_lookup_record env request location log _ _
               Hkey Hpost Hform Hloc
               (error_not_in_record _ (weather_record_keys _ _ _ _ _ _))
               (lookup_extracts env location log data n t h w s
                  Hkey Hup Hn Ht Hs Hh Hw)).
    rewrite render_record.
    destruct (is_real t) eqn:Hrt.
    - cbn [andb] in Hreal.
      rewrite (format_1f_real t Hrt), (format_1f_not_real w Hreal).
      reflexivity.
    - rewrite (format_1f_not_real t Hrt). reflexivity. }
  split; [exact Hindex|].
  unfold dispatch. rewrite Hpath. cbn [String.eqb Ascii.eqb Bool.eqb].
  rewrite Hindex. reflexivity.
Qed.

Lemma index_fails_on_text_witness :
  key_set huge_world
  /\ index huge_world london_post []
     = (Raise (OverflowError "int too large to convert to float"),
        [weather_request huge_world "London"])
  /\ dispatch huge_world london_post []
     = ({| status := 500; body := ErrorDocument |},
        [weather_request huge_world "London"]).
Proof.
  assert (Hkey : key_set huge_world) by (apply world_key_set; discriminate).
  split; [exact Hkey|].
  apply (index_fails_on_text huge_world london_post "London" [] huge_body
           (VStr "London") (VInt (10 ^ 400)) (VInt 70) (VStr "calm")
           "clear sky" Hkey eq_refl eq_refl eq_refl);
    [discriminate | reflexivity | | | | | | reflexivity];
    unfold huge_body; read_paths; read_body; reflexivity.
Defined.

(** X9: with the key set, a POST to [/] with a location that is not empty
    shows every error result of the lookup, whatever its cause, as the error
    page with the text of that result, and no weather panel. *)
Theorem index_shows_lookup_error (env : Env) (request : HttpRequest)
    (location msg : string) (log log' : list Request) :
  key_set env ->
  method request = POST ->
  form_get (form request) "location" = Some location ->
  location <> "" ->
  get_weather_data env location log = (Return (error_result msg), log') ->
  index env request log = (Return (ErrorPage (VStr msg)), log').
Proof.
  intros Hkey Hpost Hform Hloc Hrun.
  assert (Hmsg : msg <> "").
  { destruct (lookup_cases env location log Hkey)
      as (d & Hd & [(m & -> & Hm) | Hrec]).
    - assert (E : error_result msg = error_result m) by congruence.
      apply error_result_inj in E. subst m. exact Hm.
    - assert (E : d = error_result msg) by congruence. subst d.
      destruct (error_not_in_record _ Hrec (error_in_error_result msg)). }
  exact (index_lookup_error env request location msg log log'
           Hkey Hpost Hform Hloc Hmsg Hrun).
Qed.

Lemma index_shows_lookup_error_witness :
  key_set blank_world
  /\ get_weather_data blank_world "Atlantis" []
     = (Return (error_result
          "Error fetching weather for Atlantis: City not found"),
        [weather_request blank_world "Atlantis"])
  /\ index blank_world
       {| method := POST; path := "/"; form := [("location", "Atlantis")] |} []
     = (Return (ErrorPage
          (VStr "Error fetching weather for Atlantis: City not found")),
        [weather_request blank_world "Atlantis"]).
Proof.
  assert (Hkey : key_set blank_world) by (apply world_key_set; discriminate).
  assert (Hrun : get_weather_data blank_world "Atlantis" []
                 = (Return (error_result
                      "Error fetching weather for Atlantis: City not found"),
                    [weather_request blank_world "Atlantis"])).
  { apply (lookup_refused blank_world "Atlantis" [] 404
             {[ "message" := VStr "city not found" ]}
             (Some "city not found"));
      [exact Hkey | reflexivity | discriminate | apply lookup_singleton_eq]. }
  split; [exact Hkey|]. split; [exact Hrun|].
  apply (index_shows_lookup_error blank_world
           {| method := POST; path := "/"; form := [("location", "Atlantis")] |}
           "Atlantis" _ [] _ Hkey eq_refl eq_refl);
    [discriminate | exact Hrun].
Defined.

(** ** What goes out, and when *)

Lemma render_form :
  render_template_string (<["weather_data" := VNone]> {[ "error" := VNone ]})
  = Return FormPage.
Proof.
  unfold render_template_string.
  rewrite (lookup_insert_ne _ "weather_data" "error") by discriminate.
  rewrite lookup_singleton_eq, lookup_insert_eq. reflexivity.
Qed.

(** X10: with the key set, a GET to [/] is answered with status 200 and the
    bare form, neither error nor panel, whatever the form fields sent along,
    and sends nothing. *)
Theorem index_get_shows_form (env : Env) (request : HttpRequest)
    (log : list Request) :
  key_set env ->
  method request = GET ->
  index env request log = (Return FormPage, log)
  /\ (path request = "/" ->
      dispatch env request log
        = ({| status := 200; body := Html FormPage |}, log)).
Proof.
  intros Hkey Hget.
  assert (Hindex : index env request log = (Return FormPage, log)).
  { unfold index. pass_guard Hkey. rewrite Hget.
    cbv [mbind Eff_bind mret Eff_ret lift]. cbn [fst snd].
    rewrite render_form. reflexivity. }
  split; [exact Hindex|]. intros Hpath. unfold dispatch. rewrite Hpath.
  cbn [String.eqb Ascii.eqb Bool.eqb]. rewrite Hindex. reflexivity.
Qed.

Lemma index_get_shows_form_witness :
  key_set offline_world
  /\ index offline_world
       {| method := GET; path := "/"; form := [("location", "London")] |} []
     = (Return FormPage, []).
Proof.
  assert (Hkey : key_set offline_world) by (apply world_key_set; discriminate).
  split; [exact Hkey|].
  apply (index_get_shows_form offline_world
           {| method := GET; path := "/"; form := [("location", "London")] |}
           [] Hkey eq_refl).
Defined.

(** The view of [/] sends the request of the lookup when it looks up. *)
Lemma index_sends (env : Env) (request : HttpRequest) (location : string)
    (log : list Request) :
  method request = POST ->
  key_set env ->
  form_get (form request) "location" = Some location ->
  location <> "" ->
  (index env request log).2 = (log ++ [weather_request env location])%list.
Proof.
  intros Hpost Hkey Hform Hloc. unfold index. pass_guard Hkey.
  rewrite Hpost, Hform. cbn [truthy].
  apply String.eqb_neq in Hloc. rewrite Hloc. cbn [negb].
  destruct (lookup_cases env location log Hkey) as (d & Hrun & _).
  cbv [mbind Eff_bind]. rewrite Hrun.
  destruct (bool_decide ("error" ∈ dom d)).
  - unfold lift at 2.
    destruct (subscript (VDict d) (KStr "error")); reflexivity.
  - reflexivity.
Qed.

(** It sends nothing when it does not. *)
Lemma index_silent (env : Env) (request : HttpRequest) (log : list Request) :
  method request = GET \/ ~ key_set env
  \/ form_get (form request) "location" = None
  \/ form_get (form request) "location" = Some "" ->
  (index env request log).2 = log.
Proof.
  intros Hwhy. unfold index.
  destruct (truthy (of_optional (OPENWEATHER_API_KEY env))) eqn:Hkey;
    cbn [negb]; [|reflexivity].
  apply truthy_key_set in Hkey.
  destruct (method request) eqn:Hmethod; [reflexivity|].
  destruct (form_get (form request) "location") as [location|] eqn:Hform;
    [|reflexivity].
  cbn [truthy].
  destruct (String.eqb_spec location "") as [->|Hloc]; cbn [negb];
    [reflexivity|].
  destruct Hwhy as [H | [H | [H | H]]];
    [discriminate H | destruct (H Hkey) | discriminate H |].
  injection H as ->. destruct (Hloc eq_refl).
Qed.

Lemma dispatch_index_log (env : Env) (request : HttpRequest)
    (log : list Request) :
  path request = "/" ->
  (dispatch env request log).2 = (index env request log).2.
Proof.
  intros Hpath. unfold dispatch. rewrite Hpath.
  cbn [String.eqb Ascii.eqb Bool.eqb].
  destruct (index env request log) as [[page|e] log']; reflexivity.
Qed.

(** X11: what answering one incoming request sends.  A POST to [/] with the
    key set and a location that is not empty appends exactly the request of
    that location to the log; every other request, one to another path, a
    GET, one without the key, without a location or with an empty one,
    leaves the log as it was.  So no request sends more than one. *)
Theorem dispatch_sends_at_most_one (env : Env) (request : HttpRequest)
    (log : list Request) :
  (forall location : string,
     path request = "/" ->
     method request = POST ->
     key_set env ->
     form_get (form request) "location" = Some location ->
     location <> "" ->
     (dispatch env request log).2
       = (log ++ [weather_request env location])%list)
  /\ (path request <> "/" \/ method request = GET \/ ~ key_set env
      \/ form_get (form request) "location" = None
      \/ form_get (form request) "location" = Some "" ->
      (dispatch env request log).2 = log).
Proof.
  split.
  - intros location Hpath Hpost Hkey Hform Hloc.
    rewrite (dispatch_index_log env request log Hpath).
    exact (index_sends env request location log Hpost Hkey Hform Hloc).
  - intros Hwhy.
    destruct (String.eqb_spec (path request) "/") as [Hpath|Hpath].
    + rewrite (dispatch_index_log env request log Hpath).
      apply index_silent. destruct Hwhy as [H | H]; [destruct (H Hpath)|].
      exact H.
    + unfold dispatch. apply String.eqb_neq in Hpath. rewrite Hpath.
      destruct (String.eqb (path request) "/health"); [|reflexivity].
      destruct (method request); reflexivity.
Qed.

(** X12: with the key equal to a text [k] that is not empty, the one request
    of a lookup goes to the weather endpoint of OpenWeatherMap and carries,
    in this order, the location as [q] exactly as it was given, the key as
    [appid], and [units=metric]. *)
Theorem lookup_request_content (env : Env) (location k : string)
    (log : list Request) :
  OPENWEATHER_API_KEY env = Some k ->
  k <> "" ->
  (get_weather_data env location log).2
    = (log ++ [ {| url := "https://api.openweathermap.org/data/2.5/weather";
                   params := [ ("q", VStr location); ("appid", VStr k);
                               ("units", VStr "metric") ] |} ])%list.
Proof.
  intros Hk Hne.
  assert (Hkey : key_set env) by (exists k; split; assumption).
  destruct (lookup_cases env location log Hkey) as (d & Hrun & _).
  rewrite Hrun. cbn [snd]. unfold weather_request, weather_params, base_url.
  rewrite Hk. reflexivity.
Qed.

Lemma lookup_request_content_witness :
  (get_weather_data offline_world " Paris " []).2
    = [ {| url := "https://api.openweathermap.org/data/2.5/weather";
           params := [ ("q", VStr " Paris "); ("appid", VStr "SECRET");
                       ("units", VStr "metric") ] |} ].
Proof.
  apply (lookup_request_content offline_world " Paris " "SECRET" [] eq_refl).
  discriminate.
Defined.

(** ** The time stamp *)

Lemma below_enumerated (P : N -> bool) (bound : N) :
  forallb P (map N.of_nat (seq 0 (N.to_nat bound))) = true ->
  forall n : N, (n < bound)%N -> P n = true.
Proof.
  intros Hall n Hn. rewrite forallb_forall in Hall. apply Hall.
  apply in_map_iff. exists (N.to_nat n). split; [apply N2Nat.id|].
  apply in_seq. lia.
Qed.

Lemma two_digits_length (n : N) :
  (n < 100)%N -> String.length (two_digits n) = 2%nat.
Proof.
  intros Hn. apply Nat.eqb_eq.
  apply (below_enumerated
           (fun m => Nat.eqb (String.length (two_digits m)) 2) 100%N);
    [vm_compute; reflexivity | exact Hn].
Qed.

Lemma year_length (y : N) :
  (1000 <= y <= 9999)%N -> String.length (decimal y) = 4%nat.
Proof.
  intros [Hlow Hhigh].
  pose proof (below_enumerated
                (fun m => (m <? 1000)%N
                          || Nat.eqb (String.length (decimal m)) 4) 10000%N)
    as Hall.
  specialize (Hall ltac:(vm_compute; reflexivity) y ltac:(lia)).
  apply orb_true_iff in Hall. destruct Hall as [Hlt | Heq].
  - apply N.ltb_lt in Hlt. lia.
  - apply Nat.eqb_eq. exact Heq.
Qed.

Lemma length_two_inv (s : string) :
  String.length s = 2%nat ->
  exists a b : ascii, s = String a (String b "").
Proof.
  destruct s as [|a [|b [|c s]]]; try discriminate. eauto.
Qed.

Lemma length_four_inv (s : string) :
  String.length s = 4%nat ->
  exists a b c d : ascii, s = String a (String b (String c (String d ""))).
Proof.
  destruct s as [|a [|b [|c [|d [|e s]]]]]; try discriminate. eauto 6.
Qed.

(** X13: for a clock reading of the calendar with a year of four digits, the
    time stamp of a record has the shape [YYYY-MM-DD HH:MM:SS]: nineteen
    characters, with the two dashes, the blank and the two colons at their
    places. *)
Theorem strftime_shape (d : datetime) :
  calendar d ->
  String.length (strftime d) = 19%nat
  /\ String.get 4 (strftime d) = Some "-"%char
  /\ String.get 7 (strftime d) = Some "-"%char
  /\ String.get 10 (strftime d) = Some " "%char
  /\ String.get 13 (strftime d) = Some ":"%char
  /\ String.get 16 (strftime d) = Some ":"%char.
Proof.
  intros (Hy & Hmo & Hd & Hh & Hmi & Hs).
  destruct (length_four_inv _ (year_length (year d) Hy))
    as (y1 & y2 & y3 & y4 & Ey).
  destruct (length_two_inv _ (two_digits_length (month d) ltac:(lia)))
    as (m1 & m2 & Emo).
  destruct (length_two_inv _ (two_digits_length (day d) ltac:(lia)))
    as (d1 & d2 & Ed).
  destruct (length_two_inv _ (two_digits_length (hour d) ltac:(lia)))
    as (h1 & h2 & Eh).
  destruct (length_two_inv _ (two_digits_length (minute d) ltac:(lia)))
    as (i1 & i2 & Emi).
  destruct (length_two_inv _ (two_digits_length (second d) ltac:(lia)))
    as (s1 & s2 & Es).
  unfold strftime. rewrite Ey, Emo, Ed, Eh, Emi, Es.
  repeat split; reflexivity.
Qed.

Lemma strftime_shape_witness :
  calendar noon
  /\ String.length (strftime noon) = 19%nat
  /\ String.get 4 (strftime noon) = Some "-"%char
  /\ String.get 7 (strftime noon) = Some "-"%char
  /\ String.get 10 (strftime noon) = Some " "%char
  /\ String.get 13 (strftime noon) = Some ":"%char
  /\ String.get 16 (strftime noon) = Some ":"%char.
Proof.
  assert (Hnoon : calendar noon) by (unfold calendar, noon; cbn; lia).
  split; [exact Hnoon|]. exact (strftime_shape noon Hnoon).
Defined.
